(** * Teacher_agent: the agent team of [teaching.py]

    A shallow embedding of the Streamlit script [teaching.py]: the two
    adapters ([call_ollama], [search_web]), the four agent functions, and
    the script body that validates the configuration, runs the agents and
    assembles the downloads.

    Conventions.
    - A Python [str] is a [string] holding its UTF-8 bytes.  The byte of a
      space or an underscore never occurs inside a multi-byte sequence, so
      [replace(' ', '_')] and substring tests act on bytes as they act on
      code points.
    - Values that come back from [response.json()] are [pyval]s; a [dict]
      is an association list in insertion order with distinct keys.
    - A call either returns, raises an instance of [Exception], or stops the
      script ([st.stop()] raises a control signal that derives from
      [BaseException], which [except Exception] lets through).
    - The outside world (the Ollama runtime, the search provider, the
      clock) is an [env]: for every call it gives the reply, as a function
      of the calls made so far in the script run. *)

From Stdlib Require Import String Ascii List Arith NArith ZArith Lia Bool DecimalString.
Import ListNotations.
Open Scope string_scope.
Set Warnings "-register-all".

(* ===================================================================== *)
(** * Python values *)
(* ===================================================================== *)

(** What [json.loads] builds, and what the script puts in a literal. *)
Inductive pyval : Type :=
| PNone
| PBool (b : bool)
| PInt (z : Z)
| PFloat (bits64 : Z)      (* an IEEE-754 double, carried by its bit pattern *)
| PStr (s : string)
| PList (items : list pyval)
| PDict (entries : list (string * pyval)).

(** An instance of [Exception]: its class name and [str(e)]. *)
Record exception : Type := mk_exception {
  exc_class : string;
  exc_str : string
}.

(** The outcome of an expression that cannot stop the script. *)
Inductive reply (A : Type) : Type :=
| Returns (a : A)
| Raises (e : exception).
Arguments Returns {A} a.
Arguments Raises {A} e.

Definition nl : string := String "010" EmptyString.

Definition type_name (v : pyval) : string :=
  match v with
  | PNone => "NoneType"
  | PBool _ => "bool"
  | PInt _ => "int"
  | PFloat _ => "float"
  | PStr _ => "str"
  | PList _ => "list"
  | PDict _ => "dict"
  end.

Definition TypeError (msg : string) : exception := mk_exception "TypeError" msg.
Definition AttributeError (msg : string) : exception := mk_exception "AttributeError" msg.
Definition KeyError (key : string) : exception :=
  mk_exception "KeyError" ("'" ++ key ++ "'").

(** ** [str] built-ins written out *)

(** [not s] for a [str]: the empty string is the only falsy one. *)
Definition str_is_empty (s : string) : bool :=
  match s with
  | EmptyString => true
  | String _ _ => false
  end.

(** [sub in s] for two [str]s. *)
Fixpoint str_contains (sub s : string) : bool :=
  if String.prefix sub s then true
  else match s with
       | EmptyString => false
       | String _ rest => str_contains sub rest
       end.

(** [s.replace(old, new)]: every non-overlapping occurrence of [old], left
    to right.  [skip] counts the bytes of a matched occurrence still to be
    passed over.  With [old] empty, [new] goes before every character and
    after the last one; on bytes this is the Python result for ASCII text,
    and the script only ever passes [old = ' ']. *)
Fixpoint replace_from (old new : string) (skip : nat) (s : string) : string :=
  match s with
  | EmptyString => EmptyString
  | String c rest =>
      match skip with
      | S k => replace_from old new k rest
      | O =>
          if String.prefix old s
          then new ++ replace_from old new (String.length old - 1) rest
          else String c (replace_from old new 0 rest)
      end
  end.

Fixpoint intersperse_str (new s : string) : string :=
  match s with
  | EmptyString => new
  | String c rest => new ++ String c (intersperse_str new rest)
  end.

Definition str_replace (old new s : string) : string :=
  if str_is_empty old then intersperse_str new s
  else replace_from old new 0 s.

(** [sep.join(parts)]. *)
Definition str_join (sep : string) (parts : list string) : string :=
  String.concat sep parts.

(** A byte of the form 10xxxxxx continues a UTF-8 sequence. *)
Definition is_continuation (c : ascii) : bool :=
  let n := nat_of_ascii c in ((128 <=? n) && (n <? 192))%nat.

Definition starts_with_continuation (s : string) : bool :=
  match s with
  | EmptyString => false
  | String c _ => is_continuation c
  end.

(** Iterating a [str] yields its code points, each as a one-character
    [str]. *)
Fixpoint str_chars (s : string) : list string :=
  match s with
  | EmptyString => []
  | String c rest =>
      if starts_with_continuation rest
      then match str_chars rest with
           | h :: t => String c h :: t
           | [] => [String c EmptyString]
           end
      else String c EmptyString :: str_chars rest
  end.

(** ** Built-ins taken as given

    The Unicode case mappings and whitespace table behind [str.lower],
    [str.upper] and [str.strip], and the serialiser [json.dumps], belong
    to the Python runtime.  The script's behaviour is stated for any such
    functions. *)
Record builtins : Type := mk_builtins {
  str_lower : string -> string;
  str_upper : string -> string;
  str_strip : string -> string;
  (* json.dumps(obj, indent=n) *)
  json_dumps : pyval -> nat -> string
}.

(** ** Operations on parsed JSON *)

Fixpoint dict_lookup (key : string) (entries : list (string * pyval)) : option pyval :=
  match entries with
  | [] => None
  | (k, v) :: rest => if String.eqb k key then Some v else dict_lookup key rest
  end.

Definition is_str (key : string) (v : pyval) : bool :=
  match v with
  | PStr s => String.eqb s key
  | _ => false
  end.

(** [key in container], with [key] a [str]. *)
Definition py_in (key : string) (container : pyval) : reply bool :=
  match container with
  | PDict entries =>
      Returns (match dict_lookup key entries with Some _ => true | None => false end)
  | PList items => Returns (existsb (is_str key) items)
  | PStr s => Returns (str_contains key s)
  | _ => Raises (TypeError ("argument of type '" ++ type_name container ++ "' is not iterable"))
  end.

(** [container[key]], with [key] a [str]. *)
Definition py_getitem (container : pyval) (key : string) : reply pyval :=
  match container with
  | PDict entries =>
      match dict_lookup key entries with
      | Some v => Returns v
      | None => Raises (KeyError key)
      end
  | PList _ => Raises (TypeError "list indices must be integers or slices, not str")
  | PStr _ => Raises (TypeError "string indices must be integers, not 'str'")
  | _ => Raises (TypeError ("'" ++ type_name container ++ "' object is not subscriptable"))
  end.

(** The items a [for] loop draws from [v]. *)
Definition py_iter (v : pyval) : reply (list pyval) :=
  match v with
  | PList items => Returns items
  | PDict entries => Returns (map (fun kv => PStr (fst kv)) entries)
  | PStr s => Returns (map PStr (str_chars s))
  | _ => Raises (TypeError ("'" ++ type_name v ++ "' object is not iterable"))
  end.

(** [v.get(key, default)]: only a [dict] has the method. *)
Definition py_get (v : pyval) (key : string) (default : pyval) : reply pyval :=
  match v with
  | PDict entries =>
      Returns (match dict_lookup key entries with Some x => x | None => default end)
  | _ => Raises (AttributeError ("'" ++ type_name v ++ "' object has no attribute 'get'"))
  end.

(* ===================================================================== *)
(** * [datetime] and [strftime] *)
(* ===================================================================== *)

Record datetime : Type := mk_datetime {
  year : N;
  month : N;
  day : N;
  hour : N;
  minute : N;
  second : N
}.

Definition decimal (n : N) : string := NilZero.string_of_uint (N.to_uint n).

Fixpoint zeros (n : nat) : string :=
  match n with
  | O => EmptyString
  | S k => String "0" (zeros k)
  end.

(** A decimal number, zero-padded on the left to [width] digits. *)
Definition zero_padded (width : nat) (n : N) : string :=
  let digits := decimal n in
  zeros (width - String.length digits) ++ digits.

(** The directives the script uses, [%%], and any other directive left as
    it stands. *)
Definition strftime_directive (c : ascii) (d : datetime) : string :=
  if Ascii.eqb c "Y" then zero_padded 4 (year d)
  else if Ascii.eqb c "m" then zero_padded 2 (month d)
  else if Ascii.eqb c "d" then zero_padded 2 (day d)
  else if Ascii.eqb c "H" then zero_padded 2 (hour d)
  else if Ascii.eqb c "M" then zero_padded 2 (minute d)
  else if Ascii.eqb c "S" then zero_padded 2 (second d)
  else if Ascii.eqb c "%" then "%"
  else String "%" (String c EmptyString).

Fixpoint strftime (d : datetime) (format : string) : string :=
  match format with
  | EmptyString => EmptyString
  | String c rest =>
      if Ascii.eqb c "%"
      then match rest with
           | EmptyString => "%"
           | String directive rest' => strftime_directive directive d ++ strftime d rest'
           end
      else String c (strftime d rest)
  end.

(** The range of a [datetime] object. *)
Definition valid_datetime (d : datetime) : Prop :=
  (1 <= year d <= 9999 /\ 1 <= month d <= 12 /\ 1 <= day d <= 31 /\
   hour d < 24 /\ minute d < 60 /\ second d < 60)%N.

(* ===================================================================== *)
(** * The world the script runs in *)
(* ===================================================================== *)

(** [{'role': ..., 'content': ...}] *)
Record message : Type := mk_message {
  msg_role : string;
  msg_content : string
}.

(** What [requests.get] hands back: the status line and what
    [response.json()] does with the body.  The script never reads the
    status. *)
Record response : Type := mk_response {
  status_code : Z;
  response_json : reply pyval
}.

(** The calls that leave the script. *)
Inductive call : Type :=
| ollama_list_call
| ollama_chat_call (model : string) (messages : list message)
| requests_get_call (url : string) (params : list (string * pyval))
| datetime_now_call.

(** The replies of the outside world, each a function of the calls made
    before.  [ollama_list_reply] gives
    [[model['model'] for model in models['models']]] when the listing can
    be read that way, and the exception otherwise; [ollama_chat_reply]
    gives [response['message']['content']], or the exception that the call
    or the reading of its response raises. *)
Record env : Type := mk_env {
  ollama_list_reply : list call -> reply (list string);
  ollama_chat_reply : list call -> string -> list message -> reply string;
  requests_get_reply : list call -> string -> list (string * pyval) -> reply response;
  datetime_now_value : list call -> datetime
}.

(** [st.session_state] once lines 14-21 have run: the four keys exist. *)
Record session_state : Type := mk_session {
  ss_ollama_model : string;
  ss_composio_api_key : string;
  ss_serpapi_api_key : string;
  ss_topic : string
}.

(** What the page shows.  Layout calls ([set_page_config], [columns],
    [spinner], [sidebar]) place elements and add none. *)
Inductive element : Type :=
| st_title (body : string)
| st_markdown (body : string)
| st_info (body : string)
| st_error (body : string)
| st_divider
| st_download_button (label data file_name mime : string).

Record state : Type := mk_state {
  session : session_state;
  calls : list call;
  page : list element
}.

(** ** Statements: state, exceptions, [st.stop()] *)

Inductive result (A : Type) : Type :=
| Ret (a : A)
| Raise (e : exception)
| Stop.
Arguments Ret {A} a.
Arguments Raise {A} e.
Arguments Stop {A}.

Definition M (A : Type) : Type := state -> result A * state.

Definition ret {A : Type} (a : A) : M A := fun s => (Ret a, s).

Definition bind {A B : Type} (c : M A) (k : A -> M B) : M B :=
  fun s =>
    match c s with
    | (Ret a, s') => k a s'
    | (Raise e, s') => (Raise e, s')
    | (Stop, s') => (Stop, s')
    end.

Declare Scope py_scope.
Delimit Scope py_scope with py.
Notation "x <- c ;; k" := (bind c (fun x => k))
  (at level 61, c at next level, right associativity) : py_scope.
Notation "c ;;; k" := (bind c (fun _ => k))
  (at level 61, right associativity) : py_scope.
Open Scope py_scope.

(** [try: body / except Exception as e: handler]: what [body] did to the
    state stays done; a stop passes through. *)
Definition try_except {A : Type} (body : M A) (handler : exception -> M A) : M A :=
  fun s =>
    match body s with
    | (Raise e, s') => handler e s'
    | other => other
    end.

Definition lift {A : Type} (r : reply A) : M A :=
  fun s =>
    match r with
    | Returns a => (Ret a, s)
    | Raises e => (Raise e, s)
    end.

(** [st.stop()] *)
Definition st_stop {A : Type} : M A := fun s => (Stop, s).

Definition show (e : element) : M unit :=
  fun s => (Ret tt, mk_state (session s) (calls s) (page s ++ [e])).

Definition get_session : M session_state := fun s => (Ret (session s), s).

Definition set_session (ss : session_state) : M unit :=
  fun s => (Ret tt, mk_state ss (calls s) (page s)).

(** An outbound call: the world answers from the calls made so far, and
    the call joins them whether it returns or raises. *)
Definition outbound {A : Type} (c : call) (answer : list call -> reply A) : M A :=
  fun s =>
    let s' := mk_state (session s) (calls s ++ [c]) (page s) in
    match answer (calls s) with
    | Returns a => (Ret a, s')
    | Raises e => (Raise e, s')
    end.

(** [results = []; for x in items: results.append(body(x))] *)
Fixpoint for_append {A : Type} (items : list pyval) (body : pyval -> M A) : M (list A) :=
  match items with
  | [] => ret []
  | x :: rest =>
      r <- body x ;;
      rs <- for_append rest body ;;
      ret (r :: rs)
  end.

(* ===================================================================== *)
(** * The script *)
(* ===================================================================== *)

(** The options of the model selectbox. *)
Inductive model_option : Type :=
| llama3_2_latest
| mistral_latest
| sqlcoder_latest
| gemma2_2b
| phi3_mini
| tinyllama_latest.

Definition model_name (m : model_option) : string :=
  match m with
  | llama3_2_latest => "llama3.2:latest"
  | mistral_latest => "mistral:latest"
  | sqlcoder_latest => "sqlcoder:latest"
  | gemma2_2b => "gemma2:2b"
  | phi3_mini => "phi3:mini"
  | tinyllama_latest => "tinyllama:latest"
  end.

(** What the user has entered when the script runs. *)
Record widgets : Type := mk_widgets {
  selectbox_model : model_option;
  composio_text : string;
  serpapi_text : string;
  topic_text : string;
  generate_button : bool
}.

(** The dict an agent function returns; only the Research Librarian sets
    ['search_results']. *)
Record AgentResult : Type := mk_result {
  content : string;
  title : string;
  filename : string;
  search_results : option (list pyval)
}.

(** Lines 14-21: a key that is not yet in the session gets its default. *)
Definition default_session : session_state :=
  mk_session "llama3.2:latest" EmptyString EmptyString EmptyString.

Definition initial_state (prior : option session_state) : state :=
  mk_state (match prior with Some ss => ss | None => default_session end) [] [].

(** [ollama.list()], [ollama.chat(...)], [requests.get(...)] and
    [datetime.now()]. *)
Definition ollama_list (w : env) : M (list string) :=
  outbound ollama_list_call (ollama_list_reply w).

Definition ollama_chat (w : env) (model : string) (messages : list message) : M string :=
  outbound (ollama_chat_call model messages)
           (fun log => ollama_chat_reply w log model messages).

Definition requests_get (w : env) (url : string) (params : list (string * pyval)) : M response :=
  outbound (requests_get_call url params)
           (fun log => requests_get_reply w log url params).

Definition datetime_now (w : env) : M datetime :=
  outbound datetime_now_call (fun log => Returns (datetime_now_value w log)).

(** [model or st.session_state['ollama_model']] *)
Definition model_or_session (model : option string) : M string :=
  match model with
  | Some m =>
      if str_is_empty m
      then ss <- get_session ;; ret (ss_ollama_model ss)
      else ret m
  | None => ss <- get_session ;; ret (ss_ollama_model ss)
  end.

Definition call_ollama (w : env) (prompt : string) (model : option string) : M string :=
  try_except
    (chosen <- model_or_session model ;;
     response <- ollama_chat w chosen [mk_message "user" prompt] ;;
     ret response)
    (fun e => ret ("Error calling Ollama: " ++ exc_str e)).

Definition search_params (query api_key : string) : list (string * pyval) :=
  [("q", PStr query); ("api_key", PStr api_key); ("engine", PStr "google"); ("num", PInt 5)].

(** The dict appended for one entry of [organic_results]. *)
Definition search_record (entry : pyval) : M pyval :=
  t <- lift (py_get entry "title" (PStr EmptyString)) ;;
  l <- lift (py_get entry "link" (PStr EmptyString)) ;;
  s <- lift (py_get entry "snippet" (PStr EmptyString)) ;;
  ret (PDict [("title", t); ("link", l); ("snippet", s)]).

Definition search_web_body (w : env) (query api_key : string) : M (list pyval) :=
  response <- requests_get w "https://serpapi.com/search" (search_params query api_key) ;;
  data <- lift (response_json response) ;;
  present <- lift (py_in "organic_results" data) ;;
  if present : bool
  then organic <- lift (py_getitem data "organic_results") ;;
       items <- lift (py_iter organic) ;;
       for_append items search_record
  else ret [].

Definition search_error (e : exception) : list pyval :=
  [PDict [("error", PStr ("Search error: " ++ exc_str e))]].

Definition search_web (w : env) (query api_key : string) : M (list pyval) :=
  try_except (search_web_body w query api_key)
             (fun e => ret (search_error e)).

Section Teaching.

Variable py : builtins.

(** [topic.lower().replace(' ', '_')] *)
Definition topic_snake_case (topic : string) : string :=
  str_replace " " "_" (str_lower py topic).

Definition professor_prompt (topic : string) : string :=
  nl ++
  "    You are a Professor and Research Specialist. Create a comprehensive knowledge base for the topic: " ++ topic ++ nl ++
  "    " ++ nl ++
  "    Requirements:" ++ nl ++
  "    1. Explain the topic from first principles" ++ nl ++
  "    2. Include key terminology, core principles, and practical applications" ++ nl ++
  "    3. Make it detailed and accessible for beginners" ++ nl ++
  "    4. Format it clearly with headings and structure" ++ nl ++
  "    5. Include current developments and trends" ++ nl ++
  "    " ++ nl ++
  "    Create a detailed report that anyone starting out can read and get maximum value from." ++ nl ++
  "    ".

Definition academic_advisor_prompt (topic : string) : string :=
  nl ++
  "    You are an Academic Advisor and Learning Path Designer. Create a detailed learning roadmap for: " ++ topic ++ nl ++
  "    " ++ nl ++
  "    Requirements:" ++ nl ++
  "    1. Break down the topic into logical subtopics" ++ nl ++
  "    2. Arrange them in order of progression" ++ nl ++
  "    3. Include estimated time commitments for each section" ++ nl ++
  "    4. Create a structured learning path to become an expert" ++ nl ++
  "    5. Include milestones and checkpoints" ++ nl ++
  "    " ++ nl ++
  "    Present the roadmap in a clear, structured format with timelines." ++ nl ++
  "    ".

Definition research_librarian_prompt (topic : string) (search_results : list pyval) : string :=
  nl ++
  "    You are a Research Librarian. Based on the search results below, curate high-quality learning resources for: " ++ topic ++ nl ++
  "    " ++ nl ++
  "    Search Results:" ++ nl ++
  "    " ++ json_dumps py (PList search_results) 2 ++ nl ++
  "    " ++ nl ++
  "    Requirements:" ++ nl ++
  "    1. Evaluate and recommend the best resources" ++ nl ++
  "    2. Categorize them by type (tutorials, courses, books, videos, etc.)" ++ nl ++
  "    3. Include difficulty levels and prerequisites" ++ nl ++
  "    4. Provide brief descriptions and why each resource is valuable" ++ nl ++
  "    5. Include both free and paid options" ++ nl ++
  "    " ++ nl ++
  "    Create a comprehensive resource guide." ++ nl ++
  "    ".

Definition teaching_assistant_prompt (topic : string) : string :=
  nl ++
  "    You are a Teaching Assistant. Create practice materials, exercises, and projects for: " ++ topic ++ nl ++
  "    " ++ nl ++
  "    Requirements:" ++ nl ++
  "    1. Create hands-on exercises and practice problems" ++ nl ++
  "    2. Design projects that build real-world skills" ++ nl ++
  "    3. Include coding challenges if applicable" ++ nl ++
  "    4. Provide step-by-step instructions" ++ nl ++
  "    5. Include assessment criteria and solutions" ++ nl ++
  "    6. Make materials progressive from beginner to advanced" ++ nl ++
  "    " ++ nl ++
  "    Create comprehensive practice materials that reinforce learning." ++ nl ++
  "    ".

Definition professor_agent (w : env) (topic : string) : M AgentResult :=
  let prompt := professor_prompt topic in
  response <- call_ollama w prompt None ;;
  ret (mk_result response
                 ("Professor Report - " ++ topic)
                 ("professor_report_" ++ topic_snake_case topic)
                 None).

Definition academic_advisor_agent (w : env) (topic : string) : M AgentResult :=
  let prompt := academic_advisor_prompt topic in
  response <- call_ollama w prompt None ;;
  ret (mk_result response
                 ("Learning Roadmap - " ++ topic)
                 ("learning_roadmap_" ++ topic_snake_case topic)
                 None).

Definition research_librarian_agent (w : env) (topic : string) : M AgentResult :=
  ss <- get_session ;;
  results <- search_web w ("learn " ++ topic ++ " tutorial course") (ss_serpapi_api_key ss) ;;
  let prompt := research_librarian_prompt topic results in
  response <- call_ollama w prompt None ;;
  ret (mk_result response
                 ("Learning Resources - " ++ topic)
                 ("learning_resources_" ++ topic_snake_case topic)
                 (Some results)).

Definition teaching_assistant_agent (w : env) (topic : string) : M AgentResult :=
  let prompt := teaching_assistant_prompt topic in
  response <- call_ollama w prompt None ;;
  ret (mk_result response
                 ("Practice Materials - " ++ topic)
                 ("practice_materials_" ++ topic_snake_case topic)
                 None).

(** ** The sidebar and the two checks (lines 24-54) *)

Definition sidebar (ui : widgets) : M unit :=
  show (st_title "Configuration") ;;;
  ss <- get_session ;;
  set_session (mk_session (model_name (selectbox_model ui))
                          (str_strip py (composio_text ui))
                          (str_strip py (serpapi_text ui))
                          (ss_topic ss)) ;;;
  show (st_info ("Note: You can also view detailed agent responses" ++ nl ++
                 "in your terminal after execution.")).

Definition validate_api_keys : M unit :=
  ss <- get_session ;;
  if str_is_empty (ss_composio_api_key ss) || str_is_empty (ss_serpapi_api_key ss)
  then show (st_error "Please enter Composio and SerpAPI keys in the sidebar.") ;;;
       st_stop
  else ret tt.

Definition test_ollama_connection (w : env) : M unit :=
  try_except
    (available_models <- ollama_list w ;;
     ss <- get_session ;;
     if negb (existsb (String.eqb (ss_ollama_model ss)) available_models)
     then show (st_error ("Model " ++ ss_ollama_model ss ++
                          " not found. Available models: " ++
                          str_join ", " available_models)) ;;;
          st_stop
     else ret tt)
    (fun e => show (st_error ("Error connecting to Ollama: " ++ exc_str e)) ;;;
              st_stop).

(** ** The generation cycle (lines 208-326) *)

Definition complete_package_text (topic generated_on professor advisor librarian assistant : string) : string :=
  nl ++
  "COMPLETE LEARNING PACKAGE FOR: " ++ str_upper py topic ++ nl ++
  "Generated on: " ++ generated_on ++ nl ++
  nl ++
  "==========================================" ++ nl ++
  "📚 PROFESSOR'S KNOWLEDGE BASE" ++ nl ++
  "==========================================" ++ nl ++
  professor ++ nl ++
  nl ++
  "==========================================" ++ nl ++
  "🗺️ ACADEMIC ADVISOR'S LEARNING ROADMAP" ++ nl ++
  "==========================================" ++ nl ++
  advisor ++ nl ++
  nl ++
  "==========================================" ++ nl ++
  "📋 RESEARCH LIBRARIAN'S RESOURCE GUIDE" ++ nl ++
  "==========================================" ++ nl ++
  librarian ++ nl ++
  nl ++
  "==========================================" ++ nl ++
  "🎯 TEACHING ASSISTANT'S PRACTICE MATERIALS" ++ nl ++
  "==========================================" ++ nl ++
  assistant ++ nl ++
  nl ++
  "==========================================" ++ nl ++
  "END OF LEARNING PACKAGE" ++ nl ++
  "==========================================" ++ nl ++
  "        ".

Definition download (label data file_name : string) : M unit :=
  show (st_download_button label data file_name "text/plain").

Definition generate (w : env) (topic : string) : M unit :=
  ss <- get_session ;;
  set_session (mk_session (ss_ollama_model ss) (ss_composio_api_key ss)
                          (ss_serpapi_api_key ss) topic) ;;;
  professor_result <- professor_agent w topic ;;
  advisor_result <- academic_advisor_agent w topic ;;
  librarian_result <- research_librarian_agent w topic ;;
  assistant_result <- teaching_assistant_agent w topic ;;
  show (st_markdown "### 📄 Download Learning Materials:") ;;;
  now <- datetime_now w ;;
  let timestamp := strftime now "%Y%m%d_%H%M%S" in
  download "📚 Professor Report" (content professor_result)
           (filename professor_result ++ "_" ++ timestamp ++ ".txt") ;;;
  download "🗺️ Learning Roadmap" (content advisor_result)
           (filename advisor_result ++ "_" ++ timestamp ++ ".txt") ;;;
  download "📋 Resources Guide" (content librarian_result)
           (filename librarian_result ++ "_" ++ timestamp ++ ".txt") ;;;
  download "🎯 Practice Materials" (content assistant_result)
           (filename assistant_result ++ "_" ++ timestamp ++ ".txt") ;;;
  show (st_markdown "---") ;;;
  now' <- datetime_now w ;;
  let complete_package :=
    complete_package_text topic (strftime now' "%Y-%m-%d %H:%M:%S")
                          (content professor_result) (content advisor_result)
                          (content librarian_result) (content assistant_result) in
  download "📦 Download Complete Learning Package" complete_package
           ("complete_learning_package_" ++ topic_snake_case topic ++ "_" ++
            timestamp ++ ".txt") ;;;
  show (st_markdown "### 🎓 Professor's Knowledge Base:") ;;;
  show (st_markdown (content professor_result)) ;;;
  show st_divider ;;;
  show (st_markdown "### 🗺️ Academic Advisor's Learning Roadmap:") ;;;
  show (st_markdown (content advisor_result)) ;;;
  show st_divider ;;;
  show (st_markdown "### 📚 Research Librarian's Resource Guide:") ;;;
  show (st_markdown (content librarian_result)) ;;;
  show st_divider ;;;
  show (st_markdown "### 🎯 Teaching Assistant's Practice Materials:") ;;;
  show (st_markdown (content assistant_result)) ;;;
  show st_divider.

(** ** The page (lines 198-351) *)

Definition about_the_agents : string :=
  nl ++
  "- **Professor**: Researches the topic and creates a detailed knowledge base using Ollama" ++ nl ++
  "- **Academic Advisor**: Designs a structured learning roadmap for the topic" ++ nl ++
  "- **Research Librarian**: Curates high-quality learning resources using web search" ++ nl ++
  "- **Teaching Assistant**: Creates practice materials, exercises, and projects" ++ nl.

Definition instructions : string :=
  nl ++
  "1. **Select an Ollama model** from the sidebar (make sure it's pulled first)" ++ nl ++
  "2. **Enter your API keys** for Composio and SerpAPI" ++ nl ++
  "3. **Type a topic** you want to learn about" ++ nl ++
  "4. **Click Generate Learning Plan** and wait for the agents to work" ++ nl ++
  "5. **Download the learning materials** using the download buttons" ++ nl ++
  "6. **View the results** displayed below" ++ nl.

Definition main_page (w : env) (ui : widgets) : M unit :=
  show (st_title "🤖 AI Teaching Agent Team (Ollama)") ;;;
  show (st_markdown "Get personalized learning plans powered by Ollama models!") ;;;
  (if generate_button ui
   then if str_is_empty (topic_text ui)
        then show (st_error "Please enter a topic!")
        else generate w (topic_text ui)
   else ret tt) ;;;
  show (st_markdown "---") ;;;
  show (st_markdown "### About the Agents:") ;;;
  show (st_markdown about_the_agents) ;;;
  show (st_markdown "### 🤖 Current Model:") ;;;
  ss <- get_session ;;
  show (st_info ("Using Ollama model: **" ++ ss_ollama_model ss ++ "**")) ;;;
  show (st_markdown "### 📋 Instructions:") ;;;
  show (st_markdown instructions).

(** One run of the script, top to bottom. *)
Definition teaching (w : env) (ui : widgets) : M unit :=
  sidebar ui ;;;
  validate_api_keys ;;;
  test_ollama_connection w ;;;
  main_page w ui.

Definition run (w : env) (prior : option session_state) (ui : widgets) : result unit * state :=
  teaching w ui (initial_state prior).

End Teaching.

(* ===================================================================== *)
(** * A sample runtime and sample worlds *)
(* ===================================================================== *)

(** The built-ins restricted to ASCII, to run the script on concrete
    inputs.  On ASCII text they agree with Python's. *)
Definition ascii_lower_char (c : ascii) : ascii :=
  let n := nat_of_ascii c in
  if ((65 <=? n) && (n <=? 90))%nat then ascii_of_nat (n + 32) else c.

Definition ascii_upper_char (c : ascii) : ascii :=
  let n := nat_of_ascii c in
  if ((97 <=? n) && (n <=? 122))%nat then ascii_of_nat (n - 32) else c.

Fixpoint map_chars (f : ascii -> ascii) (s : string) : string :=
  match s with
  | EmptyString => EmptyString
  | String c rest => String (f c) (map_chars f rest)
  end.

Definition is_ascii_space (c : ascii) : bool :=
  let n := nat_of_ascii c in
  ((n =? 32) || ((9 <=? n) && (n <=? 13)) || ((28 <=? n) && (n <=? 31)))%nat.

Fixpoint lstrip (s : string) : string :=
  match s with
  | EmptyString => EmptyString
  | String c rest => if is_ascii_space c then lstrip rest else s
  end.

Fixpoint rstrip (s : string) : string :=
  match s with
  | EmptyString => EmptyString
  | String c rest =>
      match rstrip rest with
      | EmptyString => if is_ascii_space c then EmptyString else String c EmptyString
      | kept => String c kept
      end
  end.

Definition quote : string := String (ascii_of_nat 34) EmptyString.

Fixpoint spaces (n : nat) : string :=
  match n with
  | O => EmptyString
  | S k => String " " (spaces k)
  end.

Definition decimal_Z (z : Z) : string :=
  match z with
  | Z0 => "0"
  | Zpos p => decimal (Npos p)
  | Zneg p => "-" ++ decimal (Npos p)
  end.

(** The layout of [json.dumps(obj, indent=n)] on values whose strings need
    no escaping; a float is shown as [<float>]. *)
Fixpoint layout_dumps (indent level : nat) (v : pyval) : string :=
  match v with
  | PNone => "null"
  | PBool true => "true"
  | PBool false => "false"
  | PInt z => decimal_Z z
  | PFloat _ => "<float>"
  | PStr s => quote ++ s ++ quote
  | PList [] => "[]"
  | PList items =>
      "[" ++ nl ++
      String.concat ("," ++ nl)
        (map (fun x => spaces (indent * S level) ++ layout_dumps indent (S level) x) items) ++
      nl ++ spaces (indent * level) ++ "]"
  | PDict [] => "{}"
  | PDict entries =>
      "{" ++ nl ++
      String.concat ("," ++ nl)
        (map (fun kv => spaces (indent * S level) ++ quote ++ fst kv ++ quote ++ ": " ++
                        layout_dumps indent (S level) (snd kv)) entries) ++
      nl ++ spaces (indent * level) ++ "}"
  end.

Definition ascii_builtins : builtins :=
  mk_builtins (map_chars ascii_lower_char)
              (map_chars ascii_upper_char)
              (fun s => rstrip (lstrip s))
              (fun v indent => layout_dumps indent 0 v).

(** A world that gives the same answer whatever was called before. *)
Definition constant_env (models : reply (list string)) (chat : reply string)
           (get : reply response) (now : datetime) : env :=
  mk_env (fun _ => models) (fun _ _ _ => chat) (fun _ _ _ => get) (fun _ => now).

Definition sample_models : list string := ["llama3.2:latest"; "mistral:latest"].

Definition sample_now : datetime := mk_datetime 2024 5 17 9 3 7.

Definition sample_search_body : pyval :=
  PDict [("search_metadata", PDict [("status", PStr "Success")]);
         ("organic_results",
          PList [PDict [("position", PInt 1);
                        ("title", PStr "The Python Tutorial");
                        ("link", PStr "https://docs.python.org/3/tutorial/");
                        ("snippet", PStr "Python is an easy to learn language.")];
                 PDict [("title", PStr "Learn Python");
                        ("link", PStr "https://www.learnpython.org/")]])].

(** Everything works. *)
Definition sample_env : env :=
  constant_env (Returns sample_models) (Returns "Lesson text.")
               (Returns (mk_response 200 (Returns sample_search_body))) sample_now.

(** The Ollama runtime and the search provider are both unreachable. *)
Definition offline_env : env :=
  constant_env (Returns sample_models)
               (Raises (mk_exception "ConnectionError" "Failed to connect to Ollama"))
               (Raises (mk_exception "ConnectionError" "Max retries exceeded"))
               sample_now.

(** The provider rejects the key: status 401 with a JSON body. *)
Definition unauthorized_env : env :=
  constant_env (Returns sample_models) (Returns "Lesson text.")
               (Returns (mk_response 401
                           (Returns (PDict [("error", PStr "Invalid API key.")]))))
               sample_now.

(** The provider answers 502 with an HTML page: the body is no JSON. *)
Definition bad_gateway_env : env :=
  constant_env (Returns sample_models) (Returns "Lesson text.")
               (Returns (mk_response 502
                           (Raises (mk_exception "JSONDecodeError"
                                      "Expecting value: line 1 column 1 (char 0)"))))
               sample_now.

(** The body is JSON of an unexpected shape. *)
Definition odd_entry_env : env :=
  constant_env (Returns sample_models) (Returns "Lesson text.")
               (Returns (mk_response 200
                           (Returns (PDict [("organic_results", PList [PStr "none"])]))))
               sample_now.

Definition bare_number_env : env :=
  constant_env (Returns sample_models) (Returns "Lesson text.")
               (Returns (mk_response 200 (Returns (PInt 5)))) sample_now.

(** The selected model has not been pulled. *)
Definition no_model_env : env :=
  constant_env (Returns ["mistral:latest"]) (Returns "Lesson text.")
               (Returns (mk_response 200 (Returns sample_search_body))) sample_now.

Definition sample_widgets : widgets :=
  mk_widgets llama3_2_latest " composio-key " "serp-key" "Python Programming" true.

(* ===================================================================== *)
(** * Vocabulary of the properties *)
(* ===================================================================== *)

Definition contains (s part : string) : Prop :=
  exists before rest, s = before ++ part ++ rest.

(** The parts occur in [s] one after the other, without overlap. *)
Fixpoint in_order (parts : list string) (s : string) : Prop :=
  match parts with
  | [] => True
  | part :: later =>
      exists before rest, s = before ++ part ++ rest /\ in_order later rest
  end.

Definition rule : string := "==========================================".

(** A section banner: the heading between two rules, each on its line. *)
Definition banner (heading : string) : string :=
  rule ++ nl ++ heading ++ nl ++ rule ++ nl.

(** Every space becomes an underscore, nothing else changes. *)
Fixpoint spaces_to_underscores (s : string) : string :=
  match s with
  | EmptyString => EmptyString
  | String c rest =>
      String (if Ascii.eqb c " " then "_"%char else c) (spaces_to_underscores rest)
  end.

(** The state once the calls [cs] have been made. *)
Definition with_calls (s : state) (cs : list call) : state :=
  mk_state (session s) (calls s ++ cs) (page s).

Definition user_message (prompt : string) : list message :=
  [mk_message "user" prompt].

(** The model a call of [call_ollama] addresses. *)
Definition chosen_model (model : option string) (s : state) : string :=
  match model with
  | Some m => if str_is_empty m then ss_ollama_model (session s) else m
  | None => ss_ollama_model (session s)
  end.

Definition ollama_error (e : exception) : string :=
  "Error calling Ollama: " ++ exc_str e.

(** The text [call_ollama] hands back for a reply of the runtime. *)
Definition ollama_text (r : reply string) : string :=
  match r with
  | Returns text => text
  | Raises e => ollama_error e
  end.

Definition search_url : string := "https://serpapi.com/search".

(** A field of an entry, or the empty string. *)
Definition field_or_empty (key : string) (entry : list (string * pyval)) : pyval :=
  match dict_lookup key entry with
  | Some v => v
  | None => PStr EmptyString
  end.

Definition record_of_entry (entry : list (string * pyval)) : pyval :=
  PDict [("title", field_or_empty "title" entry);
         ("link", field_or_empty "link" entry);
         ("snippet", field_or_empty "snippet" entry)].

(** What the loop of [search_web] makes of the parsed body, without the
    state. *)
Definition record_of (entry : pyval) : reply pyval :=
  match entry with
  | PDict fields => Returns (record_of_entry fields)
  | _ => Raises (AttributeError ("'" ++ type_name entry ++ "' object has no attribute 'get'"))
  end.

Fixpoint records_of (items : list pyval) : reply (list pyval) :=
  match items with
  | [] => Returns []
  | x :: rest =>
      match record_of x with
      | Raises e => Raises e
      | Returns r =>
          match records_of rest with
          | Raises e => Raises e
          | Returns rs => Returns (r :: rs)
          end
      end
  end.

Definition organic_records (data : pyval) : reply (list pyval) :=
  match py_in "organic_results" data with
  | Raises e => Raises e
  | Returns false => Returns []
  | Returns true =>
      match py_getitem data "organic_results" with
      | Raises e => Raises e
      | Returns organic =>
          match py_iter organic with
          | Raises e => Raises e
          | Returns items => records_of items
          end
      end
  end.

(** What goes on inside the [try] of [search_web] once the request has
    been sent. *)
Definition search_try (got : reply response) : reply (list pyval) :=
  match got with
  | Raises e => Raises e
  | Returns resp =>
      match response_json resp with
      | Raises e => Raises e
      | Returns data => organic_records data
      end
  end.

Definition search_outcome (got : reply response) : list pyval :=
  match search_try got with
  | Returns records => records
  | Raises e => search_error e
  end.

(** A one-element list [[{'error': text}]]. *)
Definition is_error_sentinel (results : list pyval) : Prop :=
  exists text, results = [PDict [("error", PStr text)]].

Definition is_chat_call (c : call) : bool :=
  match c with
  | ollama_chat_call _ _ => true
  | _ => false
  end.

Definition is_search_call (c : call) : bool :=
  match c with
  | requests_get_call _ _ => true
  | _ => false
  end.

Definition is_download (e : element) : bool :=
  match e with
  | st_download_button _ _ _ _ => true
  | _ => false
  end.

Definition is_digit (c : ascii) : bool :=
  let n := nat_of_ascii c in ((48 <=? n) && (n <=? 57))%nat.

Definition is_letter (c : ascii) : bool :=
  let n := nat_of_ascii c in ((65 <=? n) && (n <=? 90))%nat.

(** [s] has the shape [shape]: a capital letter of the shape stands for
    one decimal digit, any other character for itself. *)
Fixpoint has_shape (shape s : string) : bool :=
  match shape, s with
  | EmptyString, EmptyString => true
  | String p shape', String c s' =>
      (if is_letter p then is_digit c else Ascii.eqb p c) && has_shape shape' s'
  | _, _ => false
  end.

(** The reply of the runtime to a prompt sent from state [s] to the
    session's model. *)
Definition chat_reply_at (w : env) (s : state) (prompt : string) : reply string :=
  ollama_chat_reply w (calls s) (ss_ollama_model (session s)) (user_message prompt).

Definition chat_call_at (s : state) (prompt : string) : call :=
  ollama_chat_call (ss_ollama_model (session s)) (user_message prompt).

(** The query the Research Librarian sends. *)
Definition librarian_query (topic : string) : string :=
  "learn " ++ topic ++ " tutorial course".

Definition librarian_search_call (s : state) (topic : string) : call :=
  requests_get_call search_url
    (search_params (librarian_query topic) (ss_serpapi_api_key (session s))).

(** The statement returns, in every state. *)
Definition always_returns {A : Type} (c : M A) : Prop :=
  forall s, exists a s', c s = (Ret a, s').

(** The run returned an [AgentResult] with this file name. *)
Definition returns_with_filename (outcome : result AgentResult * state)
           (name : string) : Prop :=
  exists r s', outcome = (Ret r, s') /\ filename r = name.

(** The reply of the provider to the request [search_web] sends. *)
Definition search_reply (w : env) (s : state) (query api_key : string) : reply response :=
  requests_get_reply w (calls s) search_url (search_params query api_key).

(** The parsed body has no [organic_results] field. *)
Definition organic_results_absent (data : pyval) : Prop :=
  match data with
  | PDict body => dict_lookup "organic_results" body = None
  | _ => True
  end.

(** The two halves of the sentence on a missing field, as the
    specification words them: a body that parses and lacks the field gives
    the empty list; and the sentinel comes only from a request or a parse
    that raises. *)
Definition absent_field_gives_empty : Prop :=
  forall w query api_key s resp data,
    search_reply w s query api_key = Returns resp ->
    response_json resp = Returns data ->
    organic_results_absent data ->
    fst (search_web w query api_key s) = Ret [].

Definition sentinel_only_from_request_or_parse : Prop :=
  forall w query api_key s results,
    fst (search_web w query api_key s) = Ret results ->
    is_error_sentinel results ->
    (exists e, search_reply w s query api_key = Raises e) \/
    (exists resp e, search_reply w s query api_key = Returns resp /\
                    response_json resp = Raises e).

(** The sentence on failed searches, as the specification words it: a
    response with a 4xx or 5xx status, or a body that is no JSON, gives the
    sentinel. *)
Definition error_status_gives_sentinel : Prop :=
  forall w query api_key s resp,
    search_reply w s query api_key = Returns resp ->
    ((400 <= status_code resp < 600)%Z \/
     exists e, response_json resp = Raises e) ->
    exists results,
      fst (search_web w query api_key s) = Ret results /\
      is_error_sentinel results.

(** [not composio_api_key or not serpapi_api_key], on what the sidebar has
    stored: the text of each field, stripped. *)
Definition keys_missing (py : builtins) (ui : widgets) : bool :=
  str_is_empty (str_strip py (composio_text ui)) ||
  str_is_empty (str_strip py (serpapi_text ui)).

(** The selected model is among the models the runtime lists. *)
Definition model_listed (ui : widgets) (inventory : list string) : bool :=
  existsb (String.eqb (model_name (selectbox_model ui))) inventory.

(** The session the sidebar leaves behind. *)
Definition configured (py : builtins) (ui : widgets) (previous : session_state) : session_state :=
  mk_session (model_name (selectbox_model ui))
             (str_strip py (composio_text ui))
             (str_strip py (serpapi_text ui))
             (ss_topic previous).

(** The button was pressed with a topic in the field. *)
Definition generation_requested (ui : widgets) : bool :=
  generate_button ui && negb (str_is_empty (topic_text ui)).

(** The five download buttons of a generation cycle, for the results of
    the four agents, the stamp of the file names and the time written into
    the package. *)
Definition download_buttons (py : builtins) (topic : string)
           (r1 r2 r3 r4 : AgentResult) (timestamp generated_on : string) : list element :=
  [st_download_button "📚 Professor Report" (content r1)
     (filename r1 ++ "_" ++ timestamp ++ ".txt") "text/plain";
   st_download_button "🗺️ Learning Roadmap" (content r2)
     (filename r2 ++ "_" ++ timestamp ++ ".txt") "text/plain";
   st_download_button "📋 Resources Guide" (content r3)
     (filename r3 ++ "_" ++ timestamp ++ ".txt") "text/plain";
   st_download_button "🎯 Practice Materials" (content r4)
     (filename r4 ++ "_" ++ timestamp ++ ".txt") "text/plain";
   st_download_button "📦 Download Complete Learning Package"
     (complete_package_text py topic generated_on
        (content r1) (content r2) (content r3) (content r4))
     ("complete_learning_package_" ++ topic_snake_case py topic ++ "_" ++
      timestamp ++ ".txt") "text/plain"].

(** The calls of the four agents, in the order the script runs them. *)
Definition agent_calls (model p1 p2 : string) (q : list (string * pyval))
           (p3 p4 : string) : list call :=
  [ollama_chat_call model [mk_message "user" p1];
   ollama_chat_call model [mk_message "user" p2];
   requests_get_call search_url q;
   ollama_chat_call model [mk_message "user" p3];
   ollama_chat_call model [mk_message "user" p4]].

(** The state in which the agents start: the session holds the topic. *)
Definition with_topic (s : state) (topic : string) : state :=
  mk_state (mk_session (ss_ollama_model (session s))
                       (ss_composio_api_key (session s))
                       (ss_serpapi_api_key (session s)) topic)
           (calls s) (page s).

(** The four agents run one after the other from [s0] and return. *)
Definition agents_ran (py : builtins) (w : env) (topic : string) (s0 : state)
           (r1 r2 r3 r4 : AgentResult) (s4 : state) : Prop :=
  exists s1 s2 s3,
    professor_agent py w topic s0 = (Ret r1, s1) /\
    academic_advisor_agent py w topic s1 = (Ret r2, s2) /\
    research_librarian_agent py w topic s2 = (Ret r3, s3) /\
    teaching_assistant_agent py w topic s3 = (Ret r4, s4).

(** ** Further vocabulary *)

(** A search record: the three keys, in this order, and no other. *)
Definition three_fields (r : pyval) : Prop :=
  exists t l sn, r = PDict [("title", t); ("link", l); ("snippet", sn)].

Definition is_dict (v : pyval) : bool :=
  match v with
  | PDict _ => true
  | _ => false
  end.

(** The provider answered the request of [search_web], and the body
    parsed as [data]. *)
Definition body_is (w : env) (s : state) (query api_key : string) (data : pyval) : Prop :=
  exists resp,
    search_reply w s query api_key = Returns resp /\
    response_json resp = Returns data.

(** The sentinel [search_web] returns for an exception with this text. *)
Definition sentinel_of (text : string) : list pyval :=
  [PDict [("error", PStr ("Search error: " ++ text))]].

(** What the sidebar shows (lines 25 and 38), the head of the page (lines
    198-199) and its foot (lines 329-351), for the model of the session. *)
Definition sidebar_elements : list element :=
  [st_title "Configuration";
   st_info ("Note: You can also view detailed agent responses" ++ nl ++
            "in your terminal after execution.")].

Definition head_elements : list element :=
  [st_title "🤖 AI Teaching Agent Team (Ollama)";
   st_markdown "Get personalized learning plans powered by Ollama models!"].

Definition foot_elements (model : string) : list element :=
  [st_markdown "---";
   st_markdown "### About the Agents:";
   st_markdown about_the_agents;
   st_markdown "### 🤖 Current Model:";
   st_info ("Using Ollama model: **" ++ model ++ "**");
   st_markdown "### 📋 Instructions:";
   st_markdown instructions].

(** The texts of the four agents as the page displays them (lines
    312-326). *)
Definition displayed_results (r1 r2 r3 r4 : AgentResult) : list element :=
  [st_markdown "### 🎓 Professor's Knowledge Base:";
   st_markdown (content r1);
   st_divider;
   st_markdown "### 🗺️ Academic Advisor's Learning Roadmap:";
   st_markdown (content r2);
   st_divider;
   st_markdown "### 📚 Research Librarian's Resource Guide:";
   st_markdown (content r3);
   st_divider;
   st_markdown "### 🎯 Teaching Assistant's Practice Materials:";
   st_markdown (content r4);
   st_divider].

(** The checks of lines 41-54 pass. *)
Definition checks_pass (py : builtins) (w : env) (ui : widgets) : Prop :=
  str_strip py (composio_text ui) <> EmptyString /\
  str_strip py (serpapi_text ui) <> EmptyString /\
  exists inventory,
    ollama_list_reply w [] = Returns inventory /\
    In (model_name (selectbox_model ui)) inventory.

(** The button was pressed with a topic in the field. *)
Definition plan_requested (ui : widgets) : Prop :=
  generate_button ui = true /\ topic_text ui <> EmptyString.

(** The state in which the Professor starts in a run of the script. *)
Definition agents_start (py : builtins) (ui : widgets) : state :=
  mk_state (mk_session (model_name (selectbox_model ui))
                       (str_strip py (composio_text ui))
                       (str_strip py (serpapi_text ui))
                       (topic_text ui))
           [ollama_list_call]
           (sidebar_elements ++ head_elements).

(** The session a run starts from (lines 14-21) and what the sidebar makes
    of it. *)
Definition session_before (prior : option session_state) : session_state :=
  match prior with
  | Some ss => ss
  | None => default_session
  end.

Definition session_configured (py : builtins) (prior : option session_state)
           (ui : widgets) : session_state :=
  configured py ui (session_before prior).

(** The same widgets with another text in the Composio field. *)
Definition with_composio_text (ui : widgets) (text : string) : widgets :=
  mk_widgets (selectbox_model ui) text (serpapi_text ui) (topic_text ui)
             (generate_button ui).

(** Reading a stamp back: the number a run of digits writes, and the six
    fields at their places in [YYYYMMDD_HHMMSS]. *)
Definition digit_value (c : ascii) : N := N.of_nat (nat_of_ascii c - 48).

Fixpoint number_of (s : string) (acc : N) : N :=
  match s with
  | EmptyString => acc
  | String c rest => number_of rest (10 * acc + digit_value c)
  end.

Definition read_stamp (s : string) : datetime :=
  mk_datetime (number_of (substring 0 4 s) 0) (number_of (substring 4 2 s) 0)
              (number_of (substring 6 2 s) 0) (number_of (substring 9 2 s) 0)
              (number_of (substring 11 2 s) 0) (number_of (substring 13 2 s) 0).

(** [zero_padded width n] has [width] characters and reads back as [n]. *)
Definition reads_back (width : nat) (n : N) : bool :=
  (String.length (zero_padded width n) =? width)%nat &&
  N.eqb (number_of (zero_padded width n) 0) n.


(* ===================================================================== *)
(** * Strings *)
(* ===================================================================== *)

Lemma append_nil_r (s : string) : s ++ EmptyString = s.
Proof. induction s as [|c s IH]; simpl; [reflexivity | now rewrite IH]. Qed.

Lemma append_assoc (a b c : string) : (a ++ b) ++ c = a ++ b ++ c.
Proof. induction a as [|x a IH]; simpl; [reflexivity | now rewrite IH]. Qed.

Lemma contains_middle (a part b : string) : contains (a ++ part ++ b) part.
Proof. now exists a, b. Qed.

Lemma in_order_contains (parts : list string) :
  forall s part, in_order parts s -> In part parts -> contains s part.
Proof.
  induction parts as [|p later IH]; intros s part Hs Hin; [destruct Hin|].
  destruct Hs as (before & rest & -> & Hrest).
  destruct Hin as [<- | Hin]; [apply contains_middle|].
  destruct (IH _ _ Hrest Hin) as (b' & r' & ->).
  exists (before ++ p ++ b'), r'.
  now rewrite !append_assoc.
Qed.

(** [replace(' ', '_')] is the character-wise substitution. *)
Lemma replace_space_underscore (s : string) :
  str_replace " " "_" s = spaces_to_underscores s.
Proof.
  unfold str_replace; simpl.
  induction s as [|c s IH]; [reflexivity|].
  cbn [replace_from spaces_to_underscores String.prefix].
  destruct (ascii_dec " " c) as [<- | Hne].
  - replace (String.prefix EmptyString s) with true by (now destruct s).
    simpl. now rewrite IH.
  - replace (Ascii.eqb c " ") with false
      by (symmetry; apply Ascii.eqb_neq; congruence).
    now rewrite IH.
Qed.

(* ===================================================================== *)
(** * Running statements *)
(* ===================================================================== *)

Lemma bind_returns {A B : Type} (c : M A) (k : A -> M B) (s s' : state) (a : A) :
  c s = (Ret a, s') -> bind c k s = k a s'.
Proof. intros H. unfold bind. now rewrite H. Qed.

Lemma with_calls_calls (s : state) (cs : list call) :
  calls (with_calls s cs) = (calls s ++ cs)%list.
Proof. reflexivity. Qed.

Lemma with_calls_twice (s : state) (cs ds : list call) :
  with_calls (with_calls s cs) ds = with_calls s (cs ++ ds).
Proof. unfold with_calls; simpl. now rewrite <- app_assoc. Qed.

(** ** The two adapters *)

(** [call_ollama] makes one chat call and always returns. *)
Lemma call_ollama_run (w : env) (prompt : string) (model : option string) (s : state) :
  call_ollama w prompt model s =
  (Ret (ollama_text (ollama_chat_reply w (calls s) (chosen_model model s)
                                       (user_message prompt))),
   with_calls s [ollama_chat_call (chosen_model model s) (user_message prompt)]).
Proof.
  unfold call_ollama, try_except, bind, model_or_session, chosen_model,
    ollama_chat, outbound, get_session, ret, user_message.
  destruct model as [m|]; [destruct (str_is_empty m)|]; simpl;
    destruct (ollama_chat_reply w (calls s) _ _); reflexivity.
Qed.

Lemma search_record_run (entry : pyval) (s : state) :
  search_record entry s =
  (match record_of entry with Returns r => Ret r | Raises e => Raise e end, s).
Proof. destruct entry; reflexivity. Qed.

Lemma for_append_records (items : list pyval) (s : state) :
  for_append items search_record s =
  (match records_of items with Returns rs => Ret rs | Raises e => Raise e end, s).
Proof.
  induction items as [|x rest IH]; [reflexivity|].
  cbn [for_append records_of]. unfold bind at 1.
  rewrite search_record_run.
  destruct (record_of x) as [r|e]; [|reflexivity].
  unfold bind at 1. rewrite IH.
  destruct (records_of rest); reflexivity.
Qed.

(** Inside the [try] of [search_web]: one request, then the reading of
    the body. *)
Lemma search_web_body_run (w : env) (query api_key : string) (s : state) :
  search_web_body w query api_key s =
  (match search_try (requests_get_reply w (calls s) search_url
                                        (search_params query api_key)) with
   | Returns records => Ret records
   | Raises e => Raise e
   end,
   with_calls s [requests_get_call search_url (search_params query api_key)]).
Proof.
  unfold search_web_body, search_try, requests_get, outbound, search_url.
  unfold bind at 1.
  destruct (requests_get_reply w (calls s) _ _) as [resp|e]; [|reflexivity].
  unfold bind at 1, lift at 1.
  destruct (response_json resp) as [data|e]; [|reflexivity].
  unfold organic_records.
  unfold bind at 1, lift at 1.
  destruct (py_in "organic_results" data) as [[|]|e]; [|reflexivity|reflexivity].
  unfold bind at 1, lift at 1.
  destruct (py_getitem data "organic_results") as [organic|e]; [|reflexivity].
  unfold bind at 1, lift at 1.
  destruct (py_iter organic) as [items|e]; [|reflexivity].
  now rewrite for_append_records.
Qed.

(** [search_web] makes one request and always returns. *)
Lemma search_web_run (w : env) (query api_key : string) (s : state) :
  search_web w query api_key s =
  (Ret (search_outcome (requests_get_reply w (calls s) search_url
                                           (search_params query api_key))),
   with_calls s [requests_get_call search_url (search_params query api_key)]).
Proof.
  unfold search_web, try_except, search_outcome.
  rewrite search_web_body_run.
  destruct (search_try _); reflexivity.
Qed.

(** Entries that are objects all become records. *)
Lemma records_of_objects (entries : list (list (string * pyval))) :
  records_of (map PDict entries) = Returns (map record_of_entry entries).
Proof.
  induction entries as [|entry rest IH]; [reflexivity|].
  simpl. now rewrite IH.
Qed.

(** What the loop returns is built of records with the three keys. *)
Lemma records_of_are_records (items records : list pyval) :
  records_of items = Returns records ->
  Forall (fun r => exists fields, r = record_of_entry fields) records.
Proof.
  revert records. induction items as [|x rest IH]; intros records H.
  - injection H as <-. constructor.
  - simpl in H.
    destruct x; try discriminate H. simpl in H.
    destruct (records_of rest) as [rs|e]; [|discriminate H].
    injection H as <-. constructor; [now eexists | now apply IH].
Qed.

(** A list the [try] block returns is never the error sentinel. *)
Lemma search_try_no_sentinel (got : reply response) (records : list pyval) :
  search_try got = Returns records -> ~ is_error_sentinel records.
Proof.
  intros H [text ->].
  assert (Hrec : Forall (fun r => exists fields, r = record_of_entry fields)
                        [PDict [("error", PStr text)]]).
  { unfold search_try in H.
    destruct got as [resp|e]; [|discriminate H].
    destruct (response_json resp) as [data|e]; [|discriminate H].
    unfold organic_records in H.
    destruct (py_in "organic_results" data) as [[|]|e]; try discriminate H.
    destruct (py_getitem data "organic_results") as [organic|e]; [|discriminate H].
    destruct (py_iter organic) as [items|e]; [|discriminate H].
    now apply records_of_are_records with (items := items). }
  inversion Hrec as [|r rs [fields Hr] _]. discriminate Hr.
Qed.

Section Agents.

Variable py : builtins.
Variable w : env.

(** ** The four agents *)

Lemma professor_agent_run (topic : string) (s : state) :
  professor_agent py w topic s =
  (Ret (mk_result (ollama_text (chat_reply_at w s (professor_prompt topic)))
                  ("Professor Report - " ++ topic)
                  ("professor_report_" ++ topic_snake_case py topic)
                  None),
   with_calls s [chat_call_at s (professor_prompt topic)]).
Proof.
  unfold professor_agent.
  now rewrite (bind_returns _ _ _ _ _ (call_ollama_run w _ None s)).
Qed.

Lemma academic_advisor_agent_run (topic : string) (s : state) :
  academic_advisor_agent py w topic s =
  (Ret (mk_result (ollama_text (chat_reply_at w s (academic_advisor_prompt topic)))
                  ("Learning Roadmap - " ++ topic)
                  ("learning_roadmap_" ++ topic_snake_case py topic)
                  None),
   with_calls s [chat_call_at s (academic_advisor_prompt topic)]).
Proof.
  unfold academic_advisor_agent.
  now rewrite (bind_returns _ _ _ _ _ (call_ollama_run w _ None s)).
Qed.

Lemma teaching_assistant_agent_run (topic : string) (s : state) :
  teaching_assistant_agent py w topic s =
  (Ret (mk_result (ollama_text (chat_reply_at w s (teaching_assistant_prompt topic)))
                  ("Practice Materials - " ++ topic)
                  ("practice_materials_" ++ topic_snake_case py topic)
                  None),
   with_calls s [chat_call_at s (teaching_assistant_prompt topic)]).
Proof.
  unfold teaching_assistant_agent.
  now rewrite (bind_returns _ _ _ _ _ (call_ollama_run w _ None s)).
Qed.

(** The Research Librarian searches, then prompts with what came back. *)
Lemma research_librarian_agent_run (topic : string) (s : state) :
  let results :=
    search_outcome (requests_get_reply w (calls s) search_url
                      (search_params (librarian_query topic)
                                     (ss_serpapi_api_key (session s)))) in
  let s1 := with_calls s [librarian_search_call s topic] in
  let prompt := research_librarian_prompt py topic results in
  research_librarian_agent py w topic s =
  (Ret (mk_result (ollama_text (chat_reply_at w s1 prompt))
                  ("Learning Resources - " ++ topic)
                  ("learning_resources_" ++ topic_snake_case py topic)
                  (Some results)),
   with_calls s [librarian_search_call s topic; chat_call_at s prompt]).
Proof.
  intros results s1 prompt.
  unfold research_librarian_agent.
  unfold bind at 1, get_session at 1.
  rewrite (bind_returns _ _ _ _ _ (search_web_run w _ _ s)).
  fold (librarian_query topic). fold results.
  rewrite (bind_returns _ _ _ _ _ (call_ollama_run w _ None _)).
  unfold ret. f_equal.
  now rewrite with_calls_twice.
Qed.

End Agents.

(* ===================================================================== *)
(** * Sample runs *)
(* ===================================================================== *)

Example str_replace_samples :
  str_replace " " "_" "Data  Science " = "Data__Science_" /\
  str_replace "ab" "X" "ababcab" = "XXcX" /\
  str_replace "aa" "b" "aaa" = "ba".
Proof. repeat split. Qed.

Example strftime_samples :
  strftime sample_now "%Y%m%d_%H%M%S" = "20240517_090307" /\
  strftime sample_now "%Y-%m-%d %H:%M:%S" = "2024-05-17 09:03:07".
Proof. split; reflexivity. Qed.

(** The topic [Python Programming], with the model available and both
    keys entered. *)
Example python_programming_downloads :
  map (fun e => match e with
                | st_download_button _ _ file_name _ => file_name
                | _ => EmptyString
                end)
      (filter is_download
              (page (snd (run ascii_builtins sample_env None sample_widgets)))) =
  ["professor_report_python_programming_20240517_090307.txt";
   "learning_roadmap_python_programming_20240517_090307.txt";
   "learning_resources_python_programming_20240517_090307.txt";
   "practice_materials_python_programming_20240517_090307.txt";
   "complete_learning_package_python_programming_20240517_090307.txt"].
Proof. vm_compute. reflexivity. Qed.

Example python_programming_search :
  filter is_search_call
         (calls (snd (run ascii_builtins sample_env None sample_widgets))) =
  [requests_get_call "https://serpapi.com/search"
     [("q", PStr "learn Python Programming tutorial course");
      ("api_key", PStr "serp-key"); ("engine", PStr "google"); ("num", PInt 5)]].
Proof. vm_compute. reflexivity. Qed.

Example python_programming_title_line :
  contains (complete_package_text ascii_builtins "Python Programming"
              "2024-05-17 09:03:07" "P" "A" "L" "T")
           (nl ++ "COMPLETE LEARNING PACKAGE FOR: PYTHON PROGRAMMING" ++ nl).
Proof.
  exists EmptyString. eexists. vm_compute. reflexivity.
Qed.

(** The selected model has not been pulled: the page shows the error and
    the run stops after the listing. *)
Example model_not_found_run :
  fst (run ascii_builtins no_model_env None sample_widgets) = Stop /\
  calls (snd (run ascii_builtins no_model_env None sample_widgets)) = [ollama_list_call] /\
  In (st_error "Model llama3.2:latest not found. Available models: mistral:latest")
     (page (snd (run ascii_builtins no_model_env None sample_widgets))).
Proof.
  split; [reflexivity|]. split; [reflexivity|].
  vm_compute. right. right. left. reflexivity.
Qed.

(** With Ollama and the provider unreachable the run still ends, every
    content being an error text. *)
Example offline_run :
  fst (run ascii_builtins offline_env None sample_widgets) = Ret tt /\
  In (st_download_button "📚 Professor Report"
        "Error calling Ollama: Failed to connect to Ollama"
        "professor_report_python_programming_20240517_090307.txt" "text/plain")
     (page (snd (run ascii_builtins offline_env None sample_widgets))).
Proof.
  split; [vm_compute; reflexivity|].
  vm_compute. do 5 right. left. reflexivity.
Qed.

(* ===================================================================== *)
(** * The composite package *)
(* ===================================================================== *)

(** C1.  Whatever the four contents and the topic are (empty strings
    included), the composite package holds the title line
    [COMPLETE LEARNING PACKAGE FOR: ] followed by the topic in upper case,
    and then, one after the other, the banners of the Professor, the
    Academic Advisor, the Research Librarian and the Teaching Assistant,
    each banner followed at once by that agent's content. *)
Theorem complete_package_sections
        (py : builtins)
        (topic generated_on professor advisor librarian assistant : string) :
  in_order
    [nl ++ "COMPLETE LEARNING PACKAGE FOR: " ++ str_upper py topic ++ nl;
     banner "📚 PROFESSOR'S KNOWLEDGE BASE" ++ professor;
     banner "🗺️ ACADEMIC ADVISOR'S LEARNING ROADMAP" ++ advisor;
     banner "📋 RESEARCH LIBRARIAN'S RESOURCE GUIDE" ++ librarian;
     banner "🎯 TEACHING ASSISTANT'S PRACTICE MATERIALS" ++ assistant]
    (complete_package_text py topic generated_on
                           professor advisor librarian assistant).
Proof.
  unfold complete_package_text, banner, rule. cbn [in_order].
  exists EmptyString. eexists. split.
  { rewrite !append_assoc. reflexivity. }
  exists ("Generated on: " ++ generated_on ++ nl ++ nl). eexists. split.
  { rewrite !append_assoc. reflexivity. }
  exists (nl ++ nl). eexists. split.
  { rewrite !append_assoc. reflexivity. }
  exists (nl ++ nl). eexists. split.
  { rewrite !append_assoc. reflexivity. }
  exists (nl ++ nl). eexists. split.
  { rewrite !append_assoc. reflexivity. }
  exact I.
Qed.

(* ===================================================================== *)
(** * File names *)
(* ===================================================================== *)

(** C2.  Each agent function returns an [AgentResult] whose [filename] is the
    agent's tag followed by the lower-cased topic with every space turned
    into an underscore: a function of the topic, whatever the world
    answers and whatever the state is.  The topic need not be non-empty. *)
Theorem agent_filenames (py : builtins) (w : env) (topic : string) (s : state) :
  returns_with_filename (professor_agent py w topic s)
    ("professor_report_" ++ spaces_to_underscores (str_lower py topic)) /\
  returns_with_filename (academic_advisor_agent py w topic s)
    ("learning_roadmap_" ++ spaces_to_underscores (str_lower py topic)) /\
  returns_with_filename (research_librarian_agent py w topic s)
    ("learning_resources_" ++ spaces_to_underscores (str_lower py topic)) /\
  returns_with_filename (teaching_assistant_agent py w topic s)
    ("practice_materials_" ++ spaces_to_underscores (str_lower py topic)).
Proof.
  unfold returns_with_filename.
  rewrite professor_agent_run, academic_advisor_agent_run,
    teaching_assistant_agent_run.
  rewrite (research_librarian_agent_run py w topic s).
  unfold topic_snake_case. rewrite replace_space_underscore.
  repeat split; do 2 eexists; (split; [reflexivity|reflexivity]).
Qed.

(* ===================================================================== *)
(** * Failures of the language model *)
(* ===================================================================== *)

(** C3.  When the chat call raises [e], [call_ollama] returns the text
    [Error calling Ollama: ] followed by [str(e)], which holds the message;
    an agent whose chat call raises [e] returns an [AgentResult] with that
    text as its [content]; and no agent function raises or stops, whatever
    the world does. *)
Theorem ollama_failure_becomes_content (py : builtins) (w : env) (e : exception) :
  (forall prompt model s,
      ollama_chat_reply w (calls s) (chosen_model model s) (user_message prompt)
      = Raises e ->
      exists s',
        call_ollama w prompt model s
        = (Ret ("Error calling Ollama: " ++ exc_str e), s') /\
        contains ("Error calling Ollama: " ++ exc_str e) (exc_str e)) /\
  (forall topic s,
      chat_reply_at w s (professor_prompt topic) = Raises e ->
      exists r s',
        professor_agent py w topic s = (Ret r, s') /\
        content r = "Error calling Ollama: " ++ exc_str e) /\
  (forall topic s,
      chat_reply_at w s (academic_advisor_prompt topic) = Raises e ->
      exists r s',
        academic_advisor_agent py w topic s = (Ret r, s') /\
        content r = "Error calling Ollama: " ++ exc_str e) /\
  (forall topic s results s1,
      search_web w (librarian_query topic) (ss_serpapi_api_key (session s)) s
      = (Ret results, s1) ->
      chat_reply_at w s1 (research_librarian_prompt py topic results) = Raises e ->
      exists r s',
        research_librarian_agent py w topic s = (Ret r, s') /\
        content r = "Error calling Ollama: " ++ exc_str e) /\
  (forall topic s,
      chat_reply_at w s (teaching_assistant_prompt topic) = Raises e ->
      exists r s',
        teaching_assistant_agent py w topic s = (Ret r, s') /\
        content r = "Error calling Ollama: " ++ exc_str e) /\
  (forall topic,
      always_returns (professor_agent py w topic) /\
      always_returns (academic_advisor_agent py w topic) /\
      always_returns (research_librarian_agent py w topic) /\
      always_returns (teaching_assistant_agent py w topic)).
Proof.
  repeat apply conj.
  - intros prompt model s H. eexists. rewrite call_ollama_run, H. split.
    + reflexivity.
    + exists "Error calling Ollama: ", EmptyString.
      now rewrite append_nil_r.
  - intros topic s H. do 2 eexists. rewrite professor_agent_run, H.
    split; reflexivity.
  - intros topic s H. do 2 eexists. rewrite academic_advisor_agent_run, H.
    split; reflexivity.
  - intros topic s results s1 Hsearch H.
    rewrite search_web_run in Hsearch. injection Hsearch as <- <-.
    do 2 eexists. rewrite (research_librarian_agent_run py w topic s).
    unfold librarian_search_call. rewrite H. split; reflexivity.
  - intros topic s H. do 2 eexists. rewrite teaching_assistant_agent_run, H.
    split; reflexivity.
  - intros topic. unfold always_returns. repeat apply conj; intros s.
    + rewrite professor_agent_run. now do 2 eexists.
    + rewrite academic_advisor_agent_run. now do 2 eexists.
    + rewrite (research_librarian_agent_run py w topic s). now do 2 eexists.
    + rewrite teaching_assistant_agent_run. now do 2 eexists.
Qed.

(** In the world where Ollama is unreachable, the Professor's content is
    the error text. *)
Lemma ollama_failure_becomes_content_witness :
  exists r s',
    professor_agent ascii_builtins offline_env "Rust" (initial_state None) = (Ret r, s') /\
    content r = "Error calling Ollama: Failed to connect to Ollama".
Proof.
  exact (proj1 (proj2 (ollama_failure_becomes_content
                         ascii_builtins offline_env
                         (mk_exception "ConnectionError" "Failed to connect to Ollama")))
               "Rust" (initial_state None) eq_refl).
Defined.

(* ===================================================================== *)
(** * The web search *)
(* ===================================================================== *)

(** C8.  [search_web] sends one GET, to the search URL, with the
    parameters [q], [api_key], [engine = google] and [num = 5] and no
    other; and when the body is an object whose [organic_results] is a
    list of objects, every entry becomes a record with the fields [title],
    [link], [snippet] in this order, an absent field being the empty
    string. *)
Theorem search_web_request_and_records
        (w : env) (query api_key : string) (s : state) :
  (exists results,
      search_web w query api_key s =
      (Ret results,
       with_calls s
         [requests_get_call "https://serpapi.com/search"
            [("q", PStr query); ("api_key", PStr api_key);
             ("engine", PStr "google"); ("num", PInt 5)]])) /\
  (forall resp body entries,
      search_reply w s query api_key = Returns resp ->
      response_json resp = Returns (PDict body) ->
      dict_lookup "organic_results" body = Some (PList (map PDict entries)) ->
      fst (search_web w query api_key s) =
      Ret (map (fun entry =>
                  PDict [("title", field_or_empty "title" entry);
                         ("link", field_or_empty "link" entry);
                         ("snippet", field_or_empty "snippet" entry)])
               entries)).
Proof.
  split.
  - eexists. apply search_web_run.
  - intros resp body entries Hget Hjson Hfield.
    unfold search_reply in Hget.
    rewrite search_web_run. unfold search_outcome, search_try.
    rewrite Hget, Hjson. unfold organic_records, py_in, py_getitem.
    rewrite Hfield. cbn [py_iter fst].
    now rewrite records_of_objects.
Qed.

(** On the sample body: the first entry has all three fields, the second
    no snippet. *)
Lemma search_web_request_and_records_witness :
  fst (search_web sample_env "learn Go tutorial course" "serp-key" (initial_state None)) =
  Ret [PDict [("title", PStr "The Python Tutorial");
              ("link", PStr "https://docs.python.org/3/tutorial/");
              ("snippet", PStr "Python is an easy to learn language.")];
       PDict [("title", PStr "Learn Python");
              ("link", PStr "https://www.learnpython.org/");
              ("snippet", PStr EmptyString)]].
Proof.
  exact (proj2 (search_web_request_and_records
                  sample_env "learn Go tutorial course" "serp-key" (initial_state None))
               (mk_response 200 (Returns sample_search_body))
               [("search_metadata", PDict [("status", PStr "Success")]);
                ("organic_results",
                 PList (map PDict
                   [[("position", PInt 1);
                     ("title", PStr "The Python Tutorial");
                     ("link", PStr "https://docs.python.org/3/tutorial/");
                     ("snippet", PStr "Python is an easy to learn language.")];
                    [("title", PStr "Learn Python");
                     ("link", PStr "https://www.learnpython.org/")]]))]
               _ eq_refl eq_refl eq_refl).
Defined.

(** C4, as worded, fails on both halves.  A body that is the JSON number
    [5] parses and has no [organic_results], and the result is the
    sentinel; and a body whose [organic_results] holds a string parses, the
    request and the parse raise nothing, and the result is the sentinel. *)
Lemma absent_field_claim_fails :
  ~ absent_field_gives_empty /\ ~ sentinel_only_from_request_or_parse.
Proof.
  split.
  - intros claim.
    specialize (claim bare_number_env "q" "k" (initial_state None)
                      (mk_response 200 (Returns (PInt 5))) (PInt 5)
                      eq_refl eq_refl I).
    discriminate claim.
  - intros claim.
    destruct (claim odd_entry_env "q" "k" (initial_state None)
                    [PDict [("error",
                             PStr "Search error: 'str' object has no attribute 'get'")]]
                    eq_refl (ex_intro _ _ eq_refl))
      as [[e H] | (resp & e & H & Hjson)].
    + discriminate H.
    + injection H as <-. discriminate Hjson.
Qed.

(** C4, amended.  When the body parses as an object without
    [organic_results], [search_web] returns the empty list.  The result is
    the error sentinel exactly when an exception is raised inside the [try]
    block: if the block raises [e], [search_web] returns the sentinel of
    [e]; if the block returns a list, [search_web] returns that list, which
    is no sentinel; so a sentinel that comes back is the sentinel of an
    exception the block raised.  The block raises [e] exactly when the
    request raises [e], or the parse of the body raises [e], or the reading
    of the parsed body (the membership test, the subscript, the loop, the
    [get] on an entry) raises [e]. *)
Theorem absent_field_and_sentinel (w : env) (query api_key : string) (s : state) :
  (forall resp body,
      search_reply w s query api_key = Returns resp ->
      response_json resp = Returns (PDict body) ->
      dict_lookup "organic_results" body = None ->
      fst (search_web w query api_key s) = Ret []) /\
  (forall e,
      fst (search_web_body w query api_key s) = Raise e ->
      fst (search_web w query api_key s) =
      Ret [PDict [("error", PStr ("Search error: " ++ exc_str e))]]) /\
  (forall records,
      fst (search_web_body w query api_key s) = Ret records ->
      fst (search_web w query api_key s) = Ret records /\
      ~ is_error_sentinel records) /\
  (forall results,
      fst (search_web w query api_key s) = Ret results ->
      is_error_sentinel results ->
      exists e,
        fst (search_web_body w query api_key s) = Raise e /\
        results = [PDict [("error", PStr ("Search error: " ++ exc_str e))]]) /\
  (forall e,
      fst (search_web_body w query api_key s) = Raise e <->
      search_reply w s query api_key = Raises e \/
      (exists resp,
          search_reply w s query api_key = Returns resp /\
          response_json resp = Raises e) \/
      (exists resp data,
          search_reply w s query api_key = Returns resp /\
          response_json resp = Returns data /\
          organic_records data = Raises e)).
Proof.
  split; [|split; [|split; [|split]]].
  - intros resp body Hget Hjson Hfield.
    unfold search_reply in Hget.
    rewrite search_web_run. unfold search_outcome, search_try.
    rewrite Hget, Hjson. unfold organic_records, py_in.
    now rewrite Hfield.
  - intros e Hbody. unfold search_web, try_except.
    destruct (search_web_body w query api_key s) as [outcome s'].
    cbn [fst] in Hbody. subst outcome. reflexivity.
  - intros records Hbody. split.
    + unfold search_web, try_except.
      destruct (search_web_body w query api_key s) as [outcome s'].
      cbn [fst] in Hbody. subst outcome. reflexivity.
    + rewrite search_web_body_run in Hbody. cbn [fst] in Hbody.
      destruct (search_try _) as [found|e] eqn:Htry; [|discriminate Hbody].
      injection Hbody as <-. now apply search_try_no_sentinel in Htry.
  - intros results Hres Hsentinel.
    rewrite search_web_run in Hres. rewrite search_web_body_run.
    unfold search_outcome in Hres. cbn [fst] in *.
    destruct (search_try _) as [records|e] eqn:Htry.
    + injection Hres as ->. now apply search_try_no_sentinel in Htry.
    + injection Hres as <-. now exists e.
  - intros e. rewrite search_web_body_run. cbn [fst].
    unfold search_try, search_reply.
    destruct (requests_get_reply w (calls s) search_url (search_params query api_key))
      as [resp|e0] eqn:Hget.
    + destruct (response_json resp) as [data|e1] eqn:Hjson.
      * destruct (organic_records data) as [records|e2] eqn:Hread.
        -- split; [discriminate|].
           intros [H | [(r & H1 & H2) | (r & d & H1 & H2 & H3)]]; congruence.
        -- split.
           ++ intros H. injection H as <-. right. right. now exists resp, data.
           ++ intros [H | [(r & H1 & H2) | (r & d & H1 & H2 & H3)]]; congruence.
      * split.
        -- intros H. injection H as <-. right. left. now exists resp.
        -- intros [H | [(r & H1 & H2) | (r & d & H1 & H2 & H3)]]; congruence.
    + split.
      * intros H. injection H as <-. now left.
      * intros [H | [(r & H1 & H2) | (r & d & H1 & H2 & H3)]]; congruence.
Qed.

Lemma absent_field_and_sentinel_witness :
  fst (search_web unauthorized_env "q" "k" (initial_state None)) = Ret [].
Proof.
  exact (proj1 (absent_field_and_sentinel unauthorized_env "q" "k" (initial_state None))
               (mk_response 401 (Returns (PDict [("error", PStr "Invalid API key.")])))
               [("error", PStr "Invalid API key.")]
               eq_refl eq_refl eq_refl).
Defined.

(* ===================================================================== *)
(** * The Research Librarian *)
(* ===================================================================== *)

Lemma librarian_prompt_contains_dump (py : builtins) (topic : string)
      (results : list pyval) :
  contains (research_librarian_prompt py topic results)
           (json_dumps py (PList results) 2).
Proof.
  unfold research_librarian_prompt.
  exists (nl ++
          "    You are a Research Librarian. Based on the search results below, curate high-quality learning resources for: "
          ++ topic ++ nl ++ "    " ++ nl ++ "    Search Results:" ++ nl ++ "    ").
  eexists. rewrite !append_assoc. reflexivity.
Qed.

(** C5.  The Research Librarian makes two calls: a search with the query
    [learn {topic} tutorial course] and the session's SerpAPI key, and a
    chat whose one message is the prompt.  The prompt holds
    [json.dumps(results, indent=2)] for the very list [search_web]
    returned, and the [AgentResult] carries that list as
    [search_results]. *)
Theorem librarian_prompt_embeds_search_results
        (py : builtins) (w : env) (topic : string) (s : state) :
  exists results s1 r prompt,
    search_web w ("learn " ++ topic ++ " tutorial course")
               (ss_serpapi_api_key (session s)) s = (Ret results, s1) /\
    research_librarian_agent py w topic s =
    (Ret r,
     with_calls s
       [requests_get_call "https://serpapi.com/search"
          (search_params ("learn " ++ topic ++ " tutorial course")
                         (ss_serpapi_api_key (session s)));
        ollama_chat_call (ss_ollama_model (session s))
                         [mk_message "user" prompt]]) /\
    prompt = research_librarian_prompt py topic results /\
    contains prompt (json_dumps py (PList results) 2) /\
    search_results r = Some results.
Proof.
  do 4 eexists.
  rewrite search_web_run, (research_librarian_agent_run py w topic s).
  repeat split. apply librarian_prompt_contains_dump.
Qed.

(** C7, as worded, fails: the provider answers 401 with a JSON body, and
    [search_web] returns the empty list. *)
Lemma error_status_claim_fails : ~ error_status_gives_sentinel.
Proof.
  intros claim.
  assert (Hstatus : (400 <= 401 < 600)%Z) by lia.
  destruct (claim unauthorized_env "q" "k" (initial_state None)
                  (mk_response 401 (Returns (PDict [("error", PStr "Invalid API key.")])))
                  eq_refl (or_introl Hstatus))
    as (results & Hres & text & ->).
  discriminate Hres.
Qed.

(** C7, amended.  When the request raises, or the body of the response is
    no JSON (whatever the status), [search_web] returns the sentinel of
    that exception; the Research Librarian still makes its chat call, with
    the serialised sentinel in the prompt, and returns an [AgentResult]
    that carries the sentinel. *)
Theorem failed_search_reaches_the_prompt
        (py : builtins) (w : env) (topic : string) (s : state) (e : exception) :
  let query := "learn " ++ topic ++ " tutorial course" in
  let api_key := ss_serpapi_api_key (session s) in
  let sentinel := [PDict [("error", PStr ("Search error: " ++ exc_str e))]] in
  (search_reply w s query api_key = Raises e \/
   exists resp, search_reply w s query api_key = Returns resp /\
                response_json resp = Raises e) ->
  fst (search_web w query api_key s) = Ret sentinel /\
  exists r prompt,
    research_librarian_agent py w topic s =
    (Ret r,
     with_calls s
       [requests_get_call "https://serpapi.com/search" (search_params query api_key);
        ollama_chat_call (ss_ollama_model (session s)) [mk_message "user" prompt]]) /\
    contains prompt (json_dumps py (PList sentinel) 2) /\
    search_results r = Some sentinel.
Proof.
  intros query api_key sentinel H.
  assert (Hout : search_outcome (search_reply w s query api_key) = sentinel).
  { unfold search_outcome, search_try.
    destruct H as [-> | (resp & -> & ->)]; reflexivity. }
  unfold search_reply in Hout.
  split.
  - rewrite search_web_run. cbn [fst]. now rewrite Hout.
  - do 2 eexists.
    rewrite (research_librarian_agent_run py w topic s).
    fold query api_key. unfold librarian_query. fold query. rewrite Hout.
    repeat split. apply librarian_prompt_contains_dump.
Qed.

(** A 502 whose body is an HTML page. *)
Lemma failed_search_reaches_the_prompt_witness :
  fst (search_web bad_gateway_env "learn Rust tutorial course" EmptyString
                  (initial_state None)) =
  Ret [PDict [("error",
               PStr "Search error: Expecting value: line 1 column 1 (char 0)")]].
Proof.
  exact (proj1 (failed_search_reaches_the_prompt
                  ascii_builtins bad_gateway_env "Rust" (initial_state None)
                  (mk_exception "JSONDecodeError"
                                "Expecting value: line 1 column 1 (char 0)")
                  (or_intror (ex_intro _ _ (conj eq_refl eq_refl))))).
Defined.

(* ===================================================================== *)
(** * Time stamps *)
(* ===================================================================== *)

Lemma has_shape_app (p1 p2 : string) :
  forall s1 s2,
    has_shape p1 s1 = true -> has_shape p2 s2 = true ->
    has_shape (p1 ++ p2) (s1 ++ s2) = true.
Proof.
  induction p1 as [|p p1 IH]; intros [|c s1] s2 H1 H2; try discriminate H1.
  - exact H2.
  - simpl in *. apply andb_true_iff in H1 as [Hc H1].
    rewrite Hc. simpl. now apply IH.
Qed.

Lemma two_digits (n : N) : (n < 100)%N -> has_shape "DD" (zero_padded 2 n) = true.
Proof.
  intros Hn.
  assert (Hall : forallb (fun k => has_shape "DD" (zero_padded 2 (N.of_nat k)))
                         (seq 0 (N.to_nat 100)) = true) by (vm_compute; reflexivity).
  rewrite forallb_forall in Hall.
  specialize (Hall (N.to_nat n)). rewrite N2Nat.id in Hall.
  apply Hall, in_seq. lia.
Qed.

Lemma four_digits (n : N) : (n < 10000)%N -> has_shape "DDDD" (zero_padded 4 n) = true.
Proof.
  intros Hn.
  assert (Hall : forallb (fun k => has_shape "DDDD" (zero_padded 4 (N.of_nat k)))
                         (seq 0 (N.to_nat 10000)) = true) by (vm_compute; reflexivity).
  rewrite forallb_forall in Hall.
  specialize (Hall (N.to_nat n)). rewrite N2Nat.id in Hall.
  apply Hall, in_seq. lia.
Qed.

(** The stamp of the file names: eight digits, an underscore, six
    digits. *)
Lemma timestamp_shape (d : datetime) :
  valid_datetime d -> has_shape "YYYYMMDD_HHMMSS" (strftime d "%Y%m%d_%H%M%S") = true.
Proof.
  intros (Hy & Hm & Hd & HH & HM & HS).
  change (strftime d "%Y%m%d_%H%M%S")
    with (zero_padded 4 (year d) ++ zero_padded 2 (month d) ++ zero_padded 2 (day d) ++
          "_" ++ zero_padded 2 (hour d) ++ zero_padded 2 (minute d) ++
          zero_padded 2 (second d) ++ EmptyString).
  change "YYYYMMDD_HHMMSS"
    with ("YYYY" ++ "MM" ++ "DD" ++ "_" ++ "HH" ++ "MM" ++ "SS" ++ EmptyString).
  apply has_shape_app; [apply (four_digits (year d)); lia|].
  apply has_shape_app; [apply (two_digits (month d)); lia|].
  apply has_shape_app; [apply (two_digits (day d)); lia|].
  apply (has_shape_app "_" _ "_"); [reflexivity|].
  apply has_shape_app; [apply (two_digits (hour d)); lia|].
  apply has_shape_app; [apply (two_digits (minute d)); lia|].
  apply has_shape_app; [apply (two_digits (second d)); lia|].
  reflexivity.
Qed.

(* ===================================================================== *)
(** * The script run *)
(* ===================================================================== *)

Lemma bind_stops {A B : Type} (c : M A) (k : A -> M B) (s s' : state) :
  c s = (Stop, s') -> bind c k s = (Stop, s').
Proof. intros H. unfold bind. now rewrite H. Qed.

Lemma show_run (e : element) (s : state) :
  show e s = (Ret tt, mk_state (session s) (calls s) (page s ++ [e])).
Proof. reflexivity. Qed.

Lemma download_run (label data file_name : string) (s : state) :
  download label data file_name s =
  (Ret tt, mk_state (session s) (calls s)
                    (page s ++ [st_download_button label data file_name "text/plain"])).
Proof. reflexivity. Qed.

Lemma datetime_now_run (w : env) (s : state) :
  datetime_now w s = (Ret (datetime_now_value w (calls s)), with_calls s [datetime_now_call]).
Proof. reflexivity. Qed.

(** One statement that shows an element or reads the clock. *)
Ltac step :=
  first [ rewrite (bind_returns _ _ _ _ _ (show_run _ _))
        | rewrite (bind_returns _ _ _ _ _ (download_run _ _ _ _))
        | rewrite (bind_returns _ _ _ _ _ (datetime_now_run _ _)) ];
  cbv zeta; cbn [session calls page with_calls].

Ltac read_session := unfold bind at 1, get_session at 1.

(** The page grew by [shown]: flatten the appends and read it off. *)
Ltac page_grew :=
  cbn [session calls page]; rewrite <- ?app_assoc; cbn [app]; reflexivity.

(** From [(a, b) = (x, y)] with variables [x] and [y]: put [a] and [b] in
    their place. *)
Ltac read_off R :=
  let Ra := fresh in
  let Rb := fresh in
  pose proof (f_equal fst R) as Ra; pose proof (f_equal snd R) as Rb;
  cbn [fst snd] in Ra, Rb; clear R;
  match type of Ra with _ = ?x => subst x end;
  match type of Rb with _ = ?y => subst y end.

Section Script.

Variable py : builtins.
Variable w : env.

Lemma generate_run (topic : string) (s : state) :
  exists r1 r2 r3 r4 s4 shown p1 p2 q p3 p4,
    agents_ran py w topic (with_topic s topic) r1 r2 r3 r4 s4 /\
    generate py w topic s =
    (Ret tt, mk_state (session (with_topic s topic))
                      (calls s4 ++ [datetime_now_call; datetime_now_call])
                      (page s ++ shown)) /\
    filter is_download shown =
    download_buttons py topic r1 r2 r3 r4
      (strftime (datetime_now_value w (calls s4)) "%Y%m%d_%H%M%S")
      (strftime (datetime_now_value w (calls s4 ++ [datetime_now_call]))
                "%Y-%m-%d %H:%M:%S") /\
    calls s4 = (calls s ++ agent_calls (ss_ollama_model (session s)) p1 p2 q p3 p4)%list.
Proof.
  set (s0 := with_topic s topic).
  pose proof (professor_agent_run py w topic s0) as E1.
  set (r1 := mk_result _ _ _ _) in E1. set (s1 := with_calls _ _) in E1.
  pose proof (academic_advisor_agent_run py w topic s1) as E2.
  set (r2 := mk_result _ _ _ _) in E2. set (s2 := with_calls _ _) in E2.
  pose proof (research_librarian_agent_run py w topic s2) as E3. cbv zeta in E3.
  set (r3 := mk_result _ _ _ _) in E3. set (s3 := with_calls _ _) in E3.
  pose proof (teaching_assistant_agent_run py w topic s3) as E4.
  set (r4 := mk_result _ _ _ _) in E4. set (s4 := with_calls _ _) in E4.
  assert (Hsession : session s4 = session s0) by reflexivity.
  assert (Hpage : page s4 = page s) by reflexivity.
  assert (Hcalls : exists p1 p2 q p3 p4,
             calls s4 =
             (calls s ++ agent_calls (ss_ollama_model (session s)) p1 p2 q p3 p4)%list).
  { do 5 eexists. unfold s4, s3, s2, s1. rewrite !with_calls_calls.
    rewrite <- !app_assoc. reflexivity. }
  destruct Hcalls as (p1 & p2 & q & p3 & p4 & Hcalls).
  clearbody r1 r2 r3 r4 s1 s2 s3 s4.
  exists r1, r2, r3, r4, s4. eexists. exists p1, p2, q, p3, p4.
  split; [now exists s1, s2, s3|].
  split.
  { unfold generate. read_session.
    unfold bind at 1, set_session at 1. fold (with_topic s topic). fold s0.
    rewrite (bind_returns _ _ _ _ _ E1), (bind_returns _ _ _ _ _ E2),
      (bind_returns _ _ _ _ _ E3), (bind_returns _ _ _ _ _ E4).
    repeat step. rewrite show_run.
    cbn [session calls page]. rewrite Hsession, Hpage. page_grew. }
  split; [reflexivity | exact Hcalls].
Qed.

Lemma sidebar_run (ui : widgets) (s : state) :
  exists shown,
    sidebar py ui s =
    (Ret tt, mk_state (configured py ui (session s)) (calls s) (page s ++ shown)) /\
    filter is_download shown = [].
Proof.
  eexists. unfold sidebar.
  step. read_session. unfold bind at 1, set_session at 1.
  rewrite show_run. split; [page_grew | reflexivity].
Qed.

Lemma validate_api_keys_run (s : state) :
  validate_api_keys s =
  if str_is_empty (ss_composio_api_key (session s)) ||
     str_is_empty (ss_serpapi_api_key (session s))
  then (Stop, mk_state (session s) (calls s)
                       (page s ++ [st_error "Please enter Composio and SerpAPI keys in the sidebar."]))
  else (Ret tt, s).
Proof.
  unfold validate_api_keys, bind, get_session.
  destruct (_ || _); reflexivity.
Qed.

Lemma test_ollama_connection_run (s : state) :
  exists shown,
    test_ollama_connection w s =
    match ollama_list_reply w (calls s) with
    | Raises e => (Stop, mk_state (session s) (calls s ++ [ollama_list_call]) (page s ++ shown))
    | Returns inventory =>
        if existsb (String.eqb (ss_ollama_model (session s))) inventory
        then (Ret tt, with_calls s [ollama_list_call])
        else (Stop, mk_state (session s) (calls s ++ [ollama_list_call]) (page s ++ shown))
    end /\
    filter is_download shown = [].
Proof.
  unfold test_ollama_connection, try_except, ollama_list, outbound, bind, get_session,
    show, st_stop, ret.
  destruct (ollama_list_reply w (calls s)) as [inventory|e].
  - destruct (existsb _ inventory).
    + exists []. split; reflexivity.
    + eexists. split; reflexivity.
  - eexists. split; reflexivity.
Qed.

(** The page below the checks, when no plan is generated. *)
Lemma main_page_idle (ui : widgets) (s : state) :
  generation_requested ui = false ->
  exists shown,
    main_page py w ui s = (Ret tt, mk_state (session s) (calls s) (page s ++ shown)) /\
    filter is_download shown = [].
Proof.
  unfold generation_requested. intros H. unfold main_page.
  repeat step.
  destruct (generate_button ui); [destruct (str_is_empty (topic_text ui)); [|discriminate H]|].
  - repeat step. read_session. repeat step. rewrite show_run.
    eexists. split; [page_grew | reflexivity].
  - unfold bind at 1, ret at 1.
    repeat step. read_session. repeat step. rewrite show_run.
    eexists. split; [page_grew | reflexivity].
Qed.

(** The page below the checks, when a plan is generated. *)
Lemma main_page_generates (ui : widgets) (s : state) :
  generation_requested ui = true ->
  exists r1 r2 r3 r4 s0 s4 shown p1 p2 q p3 p4,
    session s0 = session (with_topic s (topic_text ui)) /\
    calls s0 = calls s /\
    agents_ran py w (topic_text ui) s0 r1 r2 r3 r4 s4 /\
    main_page py w ui s =
    (Ret tt, mk_state (session s0)
                      (calls s4 ++ [datetime_now_call; datetime_now_call])
                      (page s ++ shown)) /\
    filter is_download shown =
    download_buttons py (topic_text ui) r1 r2 r3 r4
      (strftime (datetime_now_value w (calls s4)) "%Y%m%d_%H%M%S")
      (strftime (datetime_now_value w (calls s4 ++ [datetime_now_call]))
                "%Y-%m-%d %H:%M:%S") /\
    calls s4 = (calls s ++ agent_calls (ss_ollama_model (session s)) p1 p2 q p3 p4)%list.
Proof.
  unfold generation_requested. intros H.
  apply andb_true_iff in H as [Hbutton Htopic].
  apply negb_true_iff in Htopic.
  unfold main_page. repeat step. rewrite Hbutton, Htopic.
  match goal with
  | |- context [bind (generate py w ?t) _ ?s'] =>
      destruct (generate_run t s')
        as (r1 & r2 & r3 & r4 & s4 & shown & p1 & p2 & q & p3 & p4 &
            Hran & Hgen & Hshown & Hcalls);
      exists r1, r2, r3, r4, (with_topic s' t), s4
  end.
  eexists. exists p1, p2, q, p3, p4.
  split; [reflexivity|]. split; [reflexivity|]. split; [exact Hran|].
  rewrite (bind_returns _ _ _ _ _ Hgen).
  repeat step. read_session. repeat step. rewrite show_run.
  split; [page_grew|]. split; [|exact Hcalls].
  cbn [filter is_download]. rewrite filter_app, Hshown.
  cbn [filter is_download]. apply app_nil_r.
Qed.

End Script.

(** Every run of the script, by what the checks find. *)
Lemma run_cases (py : builtins) (w : env) (prior : option session_state) (ui : widgets) :
  (keys_missing py ui = true /\
   exists s', run py w prior ui = (Stop, s') /\ calls s' = [] /\
              filter is_download (page s') = []) \/
  (keys_missing py ui = false /\
   (forall inventory, ollama_list_reply w [] = Returns inventory ->
                      model_listed ui inventory = false) /\
   exists s', run py w prior ui = (Stop, s') /\ calls s' = [ollama_list_call] /\
              filter is_download (page s') = []) \/
  (keys_missing py ui = false /\
   (exists inventory, ollama_list_reply w [] = Returns inventory /\
                      model_listed ui inventory = true) /\
   generation_requested ui = false /\
   exists s', run py w prior ui = (Ret tt, s') /\ calls s' = [ollama_list_call] /\
              filter is_download (page s') = []) \/
  (keys_missing py ui = false /\
   (exists inventory, ollama_list_reply w [] = Returns inventory /\
                      model_listed ui inventory = true) /\
   generation_requested ui = true /\
   exists r1 r2 r3 r4 s0 s4 s' p1 p2 q p3 p4,
     session s0 = mk_session (model_name (selectbox_model ui))
                             (str_strip py (composio_text ui))
                             (str_strip py (serpapi_text ui))
                             (topic_text ui) /\
     calls s0 = [ollama_list_call] /\
     agents_ran py w (topic_text ui) s0 r1 r2 r3 r4 s4 /\
     run py w prior ui = (Ret tt, s') /\
     calls s' = (calls s4 ++ [datetime_now_call; datetime_now_call])%list /\
     filter is_download (page s') =
     download_buttons py (topic_text ui) r1 r2 r3 r4
       (strftime (datetime_now_value w (calls s4)) "%Y%m%d_%H%M%S")
       (strftime (datetime_now_value w (calls s4 ++ [datetime_now_call]))
                 "%Y-%m-%d %H:%M:%S") /\
     calls s4 =
     ollama_list_call ::
     agent_calls (model_name (selectbox_model ui)) p1 p2 q p3 p4).
Proof.
  destruct (run py w prior ui) as [outcome final] eqn:R.
  unfold run, teaching in R.
  destruct (sidebar_run py ui (initial_state prior)) as (shown1 & E1 & F1).
  rewrite (bind_returns _ _ _ _ _ E1) in R.
  unfold bind at 1 in R. rewrite validate_api_keys_run in R.
  cbn [session configured ss_composio_api_key ss_serpapi_api_key calls page
       initial_state app] in R.
  fold (keys_missing py ui) in R.
  destruct (keys_missing py ui) eqn:K.
  { read_off R.
    left. split; [reflexivity|]. eexists. split; [reflexivity|].
    cbn [calls page]. split; [reflexivity|].
    rewrite filter_app, F1. reflexivity. }
  right. cbv beta iota in R.
  set (checked := mk_state (configured py ui
                              match prior with Some ss => ss | None => default_session end)
                           [] shown1) in R.
  destruct (test_ollama_connection_run w checked) as (shown2 & E2 & F2).
  unfold bind at 1 in R. rewrite E2 in R. clear E2.
  cbn [session calls page ss_ollama_model checked configured] in R.
  destruct (ollama_list_reply w []) as [inventory|e] eqn:L.
  2:{ cbv beta iota in R. read_off R.
      left. split; [reflexivity|]. split; [intros inv H; discriminate H|].
      eexists. split; [reflexivity|]. cbn [calls page app]. split; [reflexivity|].
      rewrite filter_app, F1, F2. reflexivity. }
  change (existsb (String.eqb (model_name (selectbox_model ui))) inventory)
    with (model_listed ui inventory) in R.
  destruct (model_listed ui inventory) eqn:Hlisted.
  2:{ cbv beta iota in R. read_off R.
      left. split; [reflexivity|].
      split; [intros inv H; injection H as <-; exact Hlisted|].
      eexists. split; [reflexivity|]. cbn [calls page app]. split; [reflexivity|].
      rewrite filter_app, F1, F2. reflexivity. }
  right. cbv beta iota in R.
  destruct (generation_requested ui) eqn:G.
  - right. split; [reflexivity|]. split; [now exists inventory|]. split; [reflexivity|].
    destruct (main_page_generates py w ui (with_calls checked [ollama_list_call]) G)
      as (r1 & r2 & r3 & r4 & s0 & s4 & shown & p1 & p2 & q & p3 & p4 &
          Hs0 & Hc0 & Hran & Hmain & Hshown & Hcalls).
    rewrite Hmain in R. read_off R.
    exists r1, r2, r3, r4, s0, s4. eexists. exists p1, p2, q, p3, p4.
    split; [exact Hs0|]. split; [exact Hc0|]. split; [exact Hran|].
    split; [reflexivity|]. cbn [calls page with_calls checked app].
    split; [reflexivity|]. split; [|exact Hcalls].
    rewrite !filter_app, F1, Hshown. reflexivity.
  - left. split; [reflexivity|]. split; [now exists inventory|]. split; [reflexivity|].
    destruct (main_page_idle py w ui (with_calls checked [ollama_list_call]) G)
      as (shown & Hmain & Hshown).
    rewrite Hmain in R. read_off R.
    eexists. split; [reflexivity|]. cbn [calls page with_calls checked app].
    split; [reflexivity|].
    rewrite !filter_app, F1, Hshown. reflexivity.
Qed.

Lemma keys_present (py : builtins) (ui : widgets) :
  keys_missing py ui = false <->
  str_strip py (composio_text ui) <> EmptyString /\
  str_strip py (serpapi_text ui) <> EmptyString.
Proof.
  unfold keys_missing.
  destruct (str_strip py (composio_text ui)), (str_strip py (serpapi_text ui));
    simpl; split; try discriminate; try (intros [H1 H2]; congruence).
  now intros _; split.
Qed.

Lemma model_listed_In (ui : widgets) (inventory : list string) :
  model_listed ui inventory = true <-> In (model_name (selectbox_model ui)) inventory.
Proof.
  unfold model_listed. rewrite existsb_exists. split.
  - intros (x & Hx & Heq). apply String.eqb_eq in Heq. now subst x.
  - intros H. eexists. split; [exact H | apply String.eqb_refl].
Qed.

Lemma generation_requested_true (ui : widgets) :
  generation_requested ui = true <->
  generate_button ui = true /\ topic_text ui <> EmptyString.
Proof.
  unfold generation_requested.
  destruct (generate_button ui), (topic_text ui); simpl; split;
    try discriminate; try (intros [H1 H2]; congruence).
  now intros _; split.
Qed.

(* ===================================================================== *)
(** * Configuration errors *)
(* ===================================================================== *)

(** C6.  When a credential is empty once stripped, or the runtime lists
    its models and the selected one is not among them, the run stops: no
    chat call and no search request is among its calls, and the page
    offers no download. *)
Theorem configuration_error_stops_the_cycle
        (py : builtins) (w : env) (prior : option session_state) (ui : widgets) :
  (str_strip py (composio_text ui) = EmptyString \/
   str_strip py (serpapi_text ui) = EmptyString \/
   exists inventory,
     ollama_list_reply w [] = Returns inventory /\
     ~ In (model_name (selectbox_model ui)) inventory) ->
  exists s',
    run py w prior ui = (Stop, s') /\
    Forall (fun c => is_chat_call c = false /\ is_search_call c = false) (calls s') /\
    filter is_download (page s') = [].
Proof.
  intros H.
  destruct (run_cases py w prior ui)
    as [(_ & s' & Hrun & Hcalls & Hpage)
       |[(_ & _ & s' & Hrun & Hcalls & Hpage)
        |[(K & (inventory & L & Hlisted) & _)
         |(K & (inventory & L & Hlisted) & _)]]].
  - exists s'. rewrite Hcalls. repeat split; [exact Hrun | constructor | exact Hpage].
  - exists s'. rewrite Hcalls.
    repeat split; [exact Hrun | repeat constructor | exact Hpage].
  - exfalso. apply keys_present in K as [K1 K2]. apply model_listed_In in Hlisted.
    destruct H as [H | [H | (inv & Hinv & Hnot)]]; try contradiction.
    rewrite L in Hinv. injection Hinv as <-. contradiction.
  - exfalso. apply keys_present in K as [K1 K2]. apply model_listed_In in Hlisted.
    destruct H as [H | [H | (inv & Hinv & Hnot)]]; try contradiction.
    rewrite L in Hinv. injection Hinv as <-. contradiction.
Qed.

(** The selected model has not been pulled. *)
Lemma configuration_error_stops_the_cycle_witness :
  exists s',
    run ascii_builtins no_model_env None sample_widgets = (Stop, s') /\
    Forall (fun c => is_chat_call c = false /\ is_search_call c = false) (calls s') /\
    filter is_download (page s') = [].
Proof.
  apply configuration_error_stops_the_cycle.
  right. right. exists ["mistral:latest"]. split; [reflexivity|].
  intros [H | []]. discriminate H.
Defined.

(* ===================================================================== *)
(** * The downloads of a cycle *)
(* ===================================================================== *)

(** C9.  In a run that generates a plan, the page offers five downloads:
    one per agent, whose data is the agent's [content] and whose file name
    is the agent's [filename], an underscore, the stamp and [.txt]; and the
    composite package, named likewise from [complete_learning_package_]
    and the topic.  The stamp is read once, after the four agents have
    returned, and is the same in the five names; it has the shape
    [YYYYMMDD_HHMMSS]. *)
Theorem download_file_names
        (py : builtins) (w : env) (prior : option session_state) (ui : widgets) :
  str_strip py (composio_text ui) <> EmptyString ->
  str_strip py (serpapi_text ui) <> EmptyString ->
  (exists inventory,
      ollama_list_reply w [] = Returns inventory /\
      In (model_name (selectbox_model ui)) inventory) ->
  generate_button ui = true ->
  topic_text ui <> EmptyString ->
  (forall log, valid_datetime (datetime_now_value w log)) ->
  exists r1 r2 r3 r4 s0 s4 s' timestamp generated_on,
    calls s0 = [ollama_list_call] /\
    agents_ran py w (topic_text ui) s0 r1 r2 r3 r4 s4 /\
    run py w prior ui = (Ret tt, s') /\
    timestamp = strftime (datetime_now_value w (calls s4)) "%Y%m%d_%H%M%S" /\
    has_shape "YYYYMMDD_HHMMSS" timestamp = true /\
    filter is_download (page s') =
    [st_download_button "📚 Professor Report" (content r1)
       (filename r1 ++ "_" ++ timestamp ++ ".txt") "text/plain";
     st_download_button "🗺️ Learning Roadmap" (content r2)
       (filename r2 ++ "_" ++ timestamp ++ ".txt") "text/plain";
     st_download_button "📋 Resources Guide" (content r3)
       (filename r3 ++ "_" ++ timestamp ++ ".txt") "text/plain";
     st_download_button "🎯 Practice Materials" (content r4)
       (filename r4 ++ "_" ++ timestamp ++ ".txt") "text/plain";
     st_download_button "📦 Download Complete Learning Package"
       (complete_package_text py (topic_text ui) generated_on
          (content r1) (content r2) (content r3) (content r4))
       ("complete_learning_package_" ++
        str_replace " " "_" (str_lower py (topic_text ui)) ++ "_" ++
        timestamp ++ ".txt") "text/plain"].
Proof.
  intros K1 K2 (inventory & L & Hin) Hbutton Htopic Hclock.
  assert (K : keys_missing py ui = false) by now apply keys_present.
  assert (Hlisted : model_listed ui inventory = true) by now apply model_listed_In.
  assert (G : generation_requested ui = true) by now apply generation_requested_true.
  destruct (run_cases py w prior ui)
    as [(K' & _)
       |[(_ & Hnone & _)
        |[(_ & _ & G' & _)
         |(_ & _ & _ & r1 & r2 & r3 & r4 & s0 & s4 & s' & p1 & p2 & q & p3 & p4 &
           _ & Hc0 & Hran & Hrun & _ & Hpage & _)]]].
  - congruence.
  - specialize (Hnone inventory L). congruence.
  - congruence.
  - exists r1, r2, r3, r4, s0, s4, s'. do 2 eexists.
    split; [exact Hc0|].
    split; [exact Hran|]. split; [exact Hrun|]. split; [reflexivity|].
    split; [apply timestamp_shape, Hclock|].
    exact Hpage.
Qed.

Lemma download_file_names_witness :
  exists r1 r2 r3 r4 s0 s4 s' timestamp generated_on,
    calls s0 = [ollama_list_call] /\
    agents_ran ascii_builtins sample_env "Python Programming" s0 r1 r2 r3 r4 s4 /\
    run ascii_builtins sample_env None sample_widgets = (Ret tt, s') /\
    timestamp = strftime (datetime_now_value sample_env (calls s4)) "%Y%m%d_%H%M%S" /\
    has_shape "YYYYMMDD_HHMMSS" timestamp = true /\
    filter is_download (page s') =
    [st_download_button "📚 Professor Report" (content r1)
       (filename r1 ++ "_" ++ timestamp ++ ".txt") "text/plain";
     st_download_button "🗺️ Learning Roadmap" (content r2)
       (filename r2 ++ "_" ++ timestamp ++ ".txt") "text/plain";
     st_download_button "📋 Resources Guide" (content r3)
       (filename r3 ++ "_" ++ timestamp ++ ".txt") "text/plain";
     st_download_button "🎯 Practice Materials" (content r4)
       (filename r4 ++ "_" ++ timestamp ++ ".txt") "text/plain";
     st_download_button "📦 Download Complete Learning Package"
       (complete_package_text ascii_builtins "Python Programming" generated_on
          (content r1) (content r2) (content r3) (content r4))
       ("complete_learning_package_" ++
        str_replace " " "_" (str_lower ascii_builtins "Python Programming") ++ "_" ++
        timestamp ++ ".txt") "text/plain"].
Proof.
  apply (download_file_names ascii_builtins sample_env None sample_widgets).
  - discriminate.
  - discriminate.
  - exists sample_models. split; [reflexivity | now left].
  - reflexivity.
  - discriminate.
  - intros log. unfold valid_datetime. simpl. lia.
Defined.

(* ===================================================================== *)
(** * The model of a cycle *)
(* ===================================================================== *)

(** C10.  [call_ollama] without a model (or with an empty one) addresses
    the model of the session, and with a model addresses that model; each
    agent calls it without one, so its chat goes to the model of the
    session; and in a run of the script every chat call, there are none or
    the four of the agents, goes to the model selected in the sidebar,
    which the runtime has listed. *)
Theorem one_model_per_cycle
        (py : builtins) (w : env) (prior : option session_state) (ui : widgets) :
  (forall prompt s,
      exists text,
        call_ollama w prompt None s =
        (Ret text,
         with_calls s [ollama_chat_call (ss_ollama_model (session s))
                                        [mk_message "user" prompt]])) /\
  (forall prompt model s,
      model <> EmptyString ->
      exists text,
        call_ollama w prompt (Some model) s =
        (Ret text,
         with_calls s [ollama_chat_call model [mk_message "user" prompt]])) /\
  (forall topic s,
      let model := ss_ollama_model (session s) in
      (exists r prompt,
          professor_agent py w topic s =
          (Ret r, with_calls s [ollama_chat_call model [mk_message "user" prompt]])) /\
      (exists r prompt,
          academic_advisor_agent py w topic s =
          (Ret r, with_calls s [ollama_chat_call model [mk_message "user" prompt]])) /\
      (exists r prompt request,
          research_librarian_agent py w topic s =
          (Ret r, with_calls s [request;
                                ollama_chat_call model [mk_message "user" prompt]]) /\
          is_chat_call request = false) /\
      (exists r prompt,
          teaching_assistant_agent py w topic s =
          (Ret r, with_calls s [ollama_chat_call model [mk_message "user" prompt]]))) /\
  (let final := snd (run py w prior ui) in
   let selected := model_name (selectbox_model ui) in
   (forall model messages,
       In (ollama_chat_call model messages) (calls final) ->
       model = selected /\
       exists inventory,
         ollama_list_reply w [] = Returns inventory /\ In model inventory) /\
   (filter is_chat_call (calls final) = [] \/
    exists p1 p2 p3 p4,
      filter is_chat_call (calls final) =
      [ollama_chat_call selected [mk_message "user" p1];
       ollama_chat_call selected [mk_message "user" p2];
       ollama_chat_call selected [mk_message "user" p3];
       ollama_chat_call selected [mk_message "user" p4]])).
Proof.
  split; [|split; [|split]].
  - intros prompt s. eexists. apply call_ollama_run.
  - intros prompt model s Hmodel. eexists.
    rewrite call_ollama_run. unfold chosen_model.
    destruct model; [contradiction | reflexivity].
  - intros topic s model. repeat split.
    + do 2 eexists. apply professor_agent_run.
    + do 2 eexists. apply academic_advisor_agent_run.
    + do 3 eexists. split; [apply (research_librarian_agent_run py w topic s)|].
      reflexivity.
    + do 2 eexists. apply teaching_assistant_agent_run.
  - intros final selected. subst final.
    destruct (run_cases py w prior ui)
      as [(_ & s' & Hrun & Hcalls & _)
         |[(_ & _ & s' & Hrun & Hcalls & _)
          |[(_ & _ & _ & s' & Hrun & Hcalls & _)
           |(_ & (inventory & L & Hlisted) & _ &
             r1 & r2 & r3 & r4 & s0 & s4 & s' & p1 & p2 & q & p3 & p4 &
             _ & _ & _ & Hrun & Hcalls & _ & Hs4)]]];
      rewrite Hrun; cbn [snd]; rewrite Hcalls.
    + split; [intros model messages []|now left].
    + split; [|now left].
      intros model messages [H|[]]. discriminate H.
    + split; [|now left].
      intros model messages [H|[]]. discriminate H.
    + rewrite Hs4. apply model_listed_In in Hlisted.
      split.
      * intros model messages Hin. cbn [app agent_calls In] in Hin.
        assert (Hmodel : model = selected).
        { repeat (destruct Hin as [Hin|Hin];
                  [try discriminate Hin; now injection Hin|]).
          destruct Hin. }
        subst model. split; [reflexivity|]. now exists inventory.
      * right. exists p1, p2, p3, p4. reflexivity.
Qed.

(** In the sample run the Professor's chat goes to the selected model,
    which the runtime lists. *)
Lemma one_model_per_cycle_witness :
  "llama3.2:latest" = model_name llama3_2_latest /\
  exists inventory,
    ollama_list_reply sample_env [] = Returns inventory /\
    In "llama3.2:latest" inventory.
Proof.
  assert (Hin : In (ollama_chat_call "llama3.2:latest"
                      (user_message (professor_prompt "Python Programming")))
                   (calls (snd (run ascii_builtins sample_env None sample_widgets)))).
  { vm_compute. right. left. reflexivity. }
  exact (proj1 (proj2 (proj2 (proj2
           (one_model_per_cycle ascii_builtins sample_env None sample_widgets))))
           "llama3.2:latest" (user_message (professor_prompt "Python Programming")) Hin).
Defined.

(* ===================================================================== *)
(** * More on the web search *)
(* ===================================================================== *)

Lemma search_try_records (got : reply response) (records : list pyval) :
  search_try got = Returns records -> Forall three_fields records.
Proof.
  intros H.
  assert (Hrec : Forall (fun r => exists fields, r = record_of_entry fields) records).
  { unfold search_try in H.
    destruct got as [resp|e]; [|discriminate H].
    destruct (response_json resp) as [data|e]; [|discriminate H].
    unfold organic_records in H.
    destruct (py_in "organic_results" data) as [[|]|e]; try discriminate H.
    - destruct (py_getitem data "organic_results") as [organic|e]; [|discriminate H].
      destruct (py_iter organic) as [items|e]; [|discriminate H].
      now apply records_of_are_records with (items := items).
    - injection H as <-. constructor. }
  eapply Forall_impl; [|exact Hrec].
  intros r [fields ->]. unfold three_fields, record_of_entry. now do 3 eexists.
Qed.

(** X1.  Whatever the provider does, [search_web] returns, and what it
    returns is either the sentinel of one exception or a list in which
    every element has exactly the keys [title], [link], [snippet], in this
    order: a caller never sees a partly filled record or a mixed list. *)
Theorem search_web_result_shape (w : env) (query api_key : string) (s : state) :
  exists results s',
    search_web w query api_key s = (Ret results, s') /\
    ((exists e, results = [PDict [("error", PStr ("Search error: " ++ exc_str e))]]) \/
     Forall three_fields results).
Proof.
  do 2 eexists. split; [apply search_web_run|].
  unfold search_outcome.
  destruct (search_try _) as [records|e] eqn:Htry.
  - right. now apply search_try_records in Htry.
  - left. now exists e.
Qed.

Lemma search_web_of_body (w : env) (query api_key : string) (s : state) (data : pyval) :
  body_is w s query api_key data ->
  fst (search_web w query api_key s) =
  Ret (match organic_records data with
       | Returns records => records
       | Raises e => search_error e
       end).
Proof.
  intros (resp & Hget & Hjson). unfold search_reply in Hget.
  rewrite search_web_run. unfold search_outcome, search_try.
  now rewrite Hget, Hjson.
Qed.

Lemma records_of_stops (good : list (list (string * pyval))) (bad : pyval)
      (rest : list pyval) :
  is_dict bad = false ->
  records_of (map PDict good ++ bad :: rest) =
  Raises (AttributeError ("'" ++ type_name bad ++ "' object has no attribute 'get'")).
Proof.
  intros Hbad. induction good as [|entry good IH].
  - simpl. destruct bad; try reflexivity. discriminate Hbad.
  - simpl. now rewrite IH.
Qed.

(** X2.  One entry of [organic_results] that is not an object spoils the
    whole search: the records already built from the entries before it are
    dropped, the entries after it are not looked at, and the result is the
    sentinel that names the type of that entry. *)
Theorem search_web_all_or_nothing
        (w : env) (query api_key : string) (s : state)
        (body : list (string * pyval))
        (good : list (list (string * pyval))) (bad : pyval) (rest : list pyval) :
  body_is w s query api_key (PDict body) ->
  dict_lookup "organic_results" body = Some (PList (map PDict good ++ bad :: rest)) ->
  is_dict bad = false ->
  fst (search_web w query api_key s) =
  Ret (sentinel_of ("'" ++ type_name bad ++ "' object has no attribute 'get'")).
Proof.
  intros Hbody Hfield Hbad.
  rewrite (search_web_of_body w query api_key s _ Hbody).
  unfold organic_records, py_in, py_getitem. rewrite Hfield. cbn [py_iter].
  now rewrite records_of_stops.
Qed.

Lemma search_web_all_or_nothing_witness :
  fst (search_web
         (constant_env (Returns sample_models) (Returns "Lesson text.")
            (Returns (mk_response 200
               (Returns (PDict [("organic_results",
                                 PList [PDict [("title", PStr "A")]; PNone;
                                        PDict [("title", PStr "B")]])]))))
            sample_now)
         "q" "k" (initial_state None)) =
  Ret [PDict [("error", PStr "Search error: 'NoneType' object has no attribute 'get'")]].
Proof.
  apply (search_web_all_or_nothing _ "q" "k" (initial_state None)
           [("organic_results",
             PList [PDict [("title", PStr "A")]; PNone; PDict [("title", PStr "B")]])]
           [[("title", PStr "A")]] PNone [PDict [("title", PStr "B")]]).
  - eexists. split; reflexivity.
  - reflexivity.
  - reflexivity.
Defined.

Lemma str_chars_nonempty (c : ascii) (rest : string) :
  exists first others, str_chars (String c rest) = first :: others.
Proof.
  cbn [str_chars].
  destruct (starts_with_continuation rest); [|now do 2 eexists].
  destruct (str_chars rest); now do 2 eexists.
Qed.

(** X3.  A body that parses but is no object.  [null], a boolean or a
    number gives the sentinel (the membership test raises).  An array gives
    the empty list unless one of its elements is the string
    [organic_results], and a string gives the empty list unless it holds
    that text; in these two cases the subscript raises and the result is
    the sentinel. *)
Theorem search_web_body_not_an_object
        (w : env) (query api_key : string) (s : state) (data : pyval) :
  body_is w s query api_key data ->
  let result := fst (search_web w query api_key s) in
  match data with
  | PDict _ => True
  | PList items =>
      if existsb (is_str "organic_results") items
      then result = Ret (sentinel_of "list indices must be integers or slices, not str")
      else result = Ret []
  | PStr text =>
      if str_contains "organic_results" text
      then result = Ret (sentinel_of "string indices must be integers, not 'str'")
      else result = Ret []
  | _ =>
      result = Ret (sentinel_of ("argument of type '" ++ type_name data ++
                                 "' is not iterable"))
  end.
Proof.
  intros Hbody result. subst result.
  rewrite (search_web_of_body w query api_key s _ Hbody).
  unfold organic_records.
  destruct data as [| b | z | bits | text | items | body]; try reflexivity.
  - cbn [py_in]. destruct (str_contains "organic_results" text); reflexivity.
  - cbn [py_in]. destruct (existsb (is_str "organic_results") items); reflexivity.
Qed.

Lemma search_web_body_not_an_object_witness :
  fst (search_web
         (constant_env (Returns sample_models) (Returns "Lesson text.")
            (Returns (mk_response 200 (Returns (PList [PInt 1; PStr "organic_results"]))))
            sample_now)
         "q" "k" (initial_state None)) =
  Ret [PDict [("error",
               PStr "Search error: list indices must be integers or slices, not str")]].
Proof.
  apply (search_web_body_not_an_object _ "q" "k" (initial_state None)
           (PList [PInt 1; PStr "organic_results"])).
  eexists. split; reflexivity.
Defined.

(** X4.  An object whose [organic_results] is no array.  An empty object
    or an empty string is looped over zero times and gives the empty list;
    [null], a boolean or a number cannot be looped over and gives the
    sentinel; a non-empty object or string is looped over, its first item
    is a string, and the result is the sentinel. *)
Theorem search_web_field_not_an_array
        (w : env) (query api_key : string) (s : state)
        (body : list (string * pyval)) (organic : pyval) :
  body_is w s query api_key (PDict body) ->
  dict_lookup "organic_results" body = Some organic ->
  let result := fst (search_web w query api_key s) in
  match organic with
  | PList _ => True
  | PDict [] => result = Ret []
  | PStr EmptyString => result = Ret []
  | PDict (_ :: _) => result = Ret (sentinel_of "'str' object has no attribute 'get'")
  | PStr (String _ _) => result = Ret (sentinel_of "'str' object has no attribute 'get'")
  | _ => result = Ret (sentinel_of ("'" ++ type_name organic ++ "' object is not iterable"))
  end.
Proof.
  intros Hbody Hfield result. subst result.
  rewrite (search_web_of_body w query api_key s _ Hbody).
  unfold organic_records, py_in, py_getitem. rewrite Hfield.
  destruct organic as [| b | z | bits | text | items | entries]; try reflexivity.
  - destruct text as [|c rest]; [reflexivity|].
    cbn [py_iter]. destruct (str_chars_nonempty c rest) as (first & others & ->).
    reflexivity.
  - destruct entries as [|[k v] entries]; reflexivity.
Qed.

Lemma search_web_field_not_an_array_witness :
  fst (search_web
         (constant_env (Returns sample_models) (Returns "Lesson text.")
            (Returns (mk_response 200
               (Returns (PDict [("organic_results", PNone)]))))
            sample_now)
         "q" "k" (initial_state None)) =
  Ret [PDict [("error", PStr "Search error: 'NoneType' object is not iterable")]].
Proof.
  apply (search_web_field_not_an_array _ "q" "k" (initial_state None)
           [("organic_results", PNone)] PNone).
  - eexists. split; reflexivity.
  - reflexivity.
Defined.

(* ===================================================================== *)
(** * The page and the session of a run *)
(* ===================================================================== *)

Section Pages.

Variable py : builtins.
Variable w : env.

Lemma sidebar_page (ui : widgets) (s : state) :
  sidebar py ui s =
  (Ret tt, mk_state (configured py ui (session s)) (calls s)
                    (page s ++ sidebar_elements)).
Proof.
  unfold sidebar.
  step. read_session. unfold bind at 1, set_session at 1.
  rewrite show_run. unfold sidebar_elements. page_grew.
Qed.

Lemma test_ollama_connection_page (s : state) :
  test_ollama_connection w s =
  match ollama_list_reply w (calls s) with
  | Raises e =>
      (Stop, mk_state (session s) (calls s ++ [ollama_list_call])
                      (page s ++ [st_error ("Error connecting to Ollama: " ++ exc_str e)]))
  | Returns inventory =>
      if existsb (String.eqb (ss_ollama_model (session s))) inventory
      then (Ret tt, with_calls s [ollama_list_call])
      else (Stop, mk_state (session s) (calls s ++ [ollama_list_call])
                           (page s ++
                            [st_error ("Model " ++ ss_ollama_model (session s) ++
                                       " not found. Available models: " ++
                                       str_join ", " inventory)]))
  end.
Proof.
  unfold test_ollama_connection, try_except, ollama_list, outbound, bind, get_session,
    show, st_stop, ret.
  destruct (ollama_list_reply w (calls s)) as [inventory|e]; [|reflexivity].
  destruct (existsb _ inventory); reflexivity.
Qed.

Lemma foot_page (s : state) :
  (show (st_markdown "---") ;;;
   show (st_markdown "### About the Agents:") ;;;
   show (st_markdown about_the_agents) ;;;
   show (st_markdown "### 🤖 Current Model:") ;;;
   ss <- get_session ;;
   show (st_info ("Using Ollama model: **" ++ ss_ollama_model ss ++ "**")) ;;;
   show (st_markdown "### 📋 Instructions:") ;;;
   show (st_markdown instructions)) s =
  (Ret tt, mk_state (session s) (calls s)
                    (page s ++ foot_elements (ss_ollama_model (session s)))).
Proof.
  repeat step. read_session. repeat step. rewrite show_run.
  unfold foot_elements. page_grew.
Qed.

(** The page below the checks when no plan is generated: the head, the
    complaint about the topic if the button was pressed, the foot. *)
Lemma main_page_idle_page (ui : widgets) (s : state) :
  generation_requested ui = false ->
  main_page py w ui s =
  (Ret tt, mk_state (session s) (calls s)
                    (page s ++ head_elements ++
                     (if generate_button ui then [st_error "Please enter a topic!"] else []) ++
                     foot_elements (ss_ollama_model (session s)))).
Proof.
  unfold generation_requested. intros H. unfold main_page.
  repeat step.
  destruct (generate_button ui); [destruct (str_is_empty (topic_text ui)); [|discriminate H]|].
  - step. rewrite foot_page. unfold head_elements. page_grew.
  - unfold bind at 1, ret at 1. rewrite foot_page. unfold head_elements. page_grew.
Qed.

(** The generation cycle, with all it shows. *)
Lemma generate_page (topic : string) (s : state) :
  exists r1 r2 r3 r4 s4,
    agents_ran py w topic (with_topic s topic) r1 r2 r3 r4 s4 /\
    generate py w topic s =
    (Ret tt,
     mk_state (session (with_topic s topic))
              (calls s4 ++ [datetime_now_call; datetime_now_call])
              (page s ++
               [st_markdown "### 📄 Download Learning Materials:"] ++
               firstn 4 (download_buttons py topic r1 r2 r3 r4
                           (strftime (datetime_now_value w (calls s4)) "%Y%m%d_%H%M%S")
                           (strftime (datetime_now_value w (calls s4 ++ [datetime_now_call]))
                                     "%Y-%m-%d %H:%M:%S")) ++
               [st_markdown "---"] ++
               skipn 4 (download_buttons py topic r1 r2 r3 r4
                          (strftime (datetime_now_value w (calls s4)) "%Y%m%d_%H%M%S")
                          (strftime (datetime_now_value w (calls s4 ++ [datetime_now_call]))
                                    "%Y-%m-%d %H:%M:%S")) ++
               displayed_results r1 r2 r3 r4)).
Proof.
  set (s0 := with_topic s topic).
  pose proof (professor_agent_run py w topic s0) as E1.
  set (r1 := mk_result _ _ _ _) in E1. set (s1 := with_calls _ _) in E1.
  pose proof (academic_advisor_agent_run py w topic s1) as E2.
  set (r2 := mk_result _ _ _ _) in E2. set (s2 := with_calls _ _) in E2.
  pose proof (research_librarian_agent_run py w topic s2) as E3. cbv zeta in E3.
  set (r3 := mk_result _ _ _ _) in E3. set (s3 := with_calls _ _) in E3.
  pose proof (teaching_assistant_agent_run py w topic s3) as E4.
  set (r4 := mk_result _ _ _ _) in E4. set (s4 := with_calls _ _) in E4.
  assert (Hsession : session s4 = session s0) by reflexivity.
  assert (Hpage : page s4 = page s) by reflexivity.
  clearbody r1 r2 r3 r4 s1 s2 s3 s4.
  exists r1, r2, r3, r4, s4.
  split; [now exists s1, s2, s3|].
  unfold generate. read_session.
  unfold bind at 1, set_session at 1. fold (with_topic s topic). fold s0.
  rewrite (bind_returns _ _ _ _ _ E1), (bind_returns _ _ _ _ _ E2),
    (bind_returns _ _ _ _ _ E3), (bind_returns _ _ _ _ _ E4).
  repeat step. rewrite show_run.
  cbn [session calls page]. rewrite Hsession, Hpage.
  unfold download_buttons, displayed_results. cbn [firstn skipn]. page_grew.
Qed.

End Pages.

(** The checks of a run, and where the page below them starts. *)
Lemma run_checks (py : builtins) (w : env) (prior : option session_state) (ui : widgets) :
  run py w prior ui =
  let start := session_configured py prior ui in
  if keys_missing py ui
  then (Stop, mk_state start []
                (sidebar_elements ++
                 [st_error "Please enter Composio and SerpAPI keys in the sidebar."]))
  else match ollama_list_reply w [] with
       | Raises e =>
           (Stop, mk_state start [ollama_list_call]
                    (sidebar_elements ++
                     [st_error ("Error connecting to Ollama: " ++ exc_str e)]))
       | Returns inventory =>
           if model_listed ui inventory
           then main_page py w ui (mk_state start [ollama_list_call] sidebar_elements)
           else (Stop, mk_state start [ollama_list_call]
                         (sidebar_elements ++
                          [st_error ("Model " ++ model_name (selectbox_model ui) ++
                                     " not found. Available models: " ++
                                     str_join ", " inventory)]))
       end.
Proof.
  unfold run, teaching.
  rewrite (bind_returns _ _ _ _ _ (sidebar_page py ui (initial_state prior))).
  unfold bind at 1. rewrite validate_api_keys_run.
  cbn [session configured ss_composio_api_key ss_serpapi_api_key calls page
       initial_state app].
  fold (keys_missing py ui). fold (session_before prior).
  fold (configured py ui (session_before prior)).
  fold (session_configured py prior ui).
  cbv zeta.
  destruct (keys_missing py ui); [reflexivity|].
  cbv beta iota. unfold bind at 1. rewrite test_ollama_connection_page.
  cbn [session calls page app].
  destruct (ollama_list_reply w []) as [inventory|e]; [|reflexivity].
  change (existsb (String.eqb (ss_ollama_model (session_configured py prior ui))) inventory)
    with (model_listed ui inventory).
  destruct (model_listed ui inventory); reflexivity.
Qed.

Lemma checks_pass_iff (py : builtins) (w : env) (ui : widgets) :
  checks_pass py w ui <->
  keys_missing py ui = false /\
  exists inventory,
    ollama_list_reply w [] = Returns inventory /\ model_listed ui inventory = true.
Proof.
  unfold checks_pass. rewrite keys_present. split.
  - intros (K1 & K2 & inventory & L & Hin). repeat split; try assumption.
    exists inventory. split; [exact L | now apply model_listed_In].
  - intros ((K1 & K2) & inventory & L & Hin). repeat split; try assumption.
    exists inventory. split; [exact L | now apply model_listed_In].
Qed.

Lemma plan_requested_iff (ui : widgets) :
  plan_requested ui <-> generation_requested ui = true.
Proof. unfold plan_requested. symmetry. apply generation_requested_true. Qed.

(* ===================================================================== *)
(** * Runs that stop at a check *)
(* ===================================================================== *)

(** X5.  With an empty Composio or SerpAPI key (once stripped) the run
    stops at the first check: nothing has been called, not even the
    listing of the models; the page shows the sidebar and the one error;
    and the session already holds the selected model and the stripped
    keys, the topic being the one of the run before. *)
Theorem missing_key_stops_before_any_call
        (py : builtins) (w : env) (prior : option session_state) (ui : widgets) :
  str_strip py (composio_text ui) = EmptyString \/
  str_strip py (serpapi_text ui) = EmptyString ->
  run py w prior ui =
  (Stop,
   mk_state (mk_session (model_name (selectbox_model ui))
                        (str_strip py (composio_text ui))
                        (str_strip py (serpapi_text ui))
                        (ss_topic (session_before prior)))
            []
            (sidebar_elements ++
             [st_error "Please enter Composio and SerpAPI keys in the sidebar."])).
Proof.
  intros H. rewrite run_checks. cbv zeta.
  assert (K : keys_missing py ui = true).
  { unfold keys_missing. destruct H as [-> | ->]; [reflexivity|].
    apply orb_true_r. }
  now rewrite K.
Qed.

Lemma missing_key_stops_before_any_call_witness :
  calls (snd (run ascii_builtins sample_env None
                  (mk_widgets llama3_2_latest "   " "serp-key" "Rust" true))) = [].
Proof.
  rewrite (missing_key_stops_before_any_call ascii_builtins sample_env None
             (mk_widgets llama3_2_latest "   " "serp-key" "Rust" true)).
  - reflexivity.
  - left. reflexivity.
Defined.

(** X6.  When the listing of the models raises (Ollama is not running),
    the run stops after that one call: no agent runs, and the page shows
    [Error connecting to Ollama: ] followed by the message. *)
Theorem listing_failure_stops_the_run
        (py : builtins) (w : env) (prior : option session_state) (ui : widgets)
        (e : exception) :
  str_strip py (composio_text ui) <> EmptyString ->
  str_strip py (serpapi_text ui) <> EmptyString ->
  ollama_list_reply w [] = Raises e ->
  run py w prior ui =
  (Stop,
   mk_state (session_configured py prior ui)
            [ollama_list_call]
            (sidebar_elements ++
             [st_error ("Error connecting to Ollama: " ++ exc_str e)])).
Proof.
  intros K1 K2 L. rewrite run_checks. cbv zeta.
  replace (keys_missing py ui) with false by (symmetry; now apply keys_present).
  now rewrite L.
Qed.

Lemma listing_failure_stops_the_run_witness :
  fst (run ascii_builtins
           (constant_env (Raises (mk_exception "ConnectionError" "connection refused"))
                         (Returns "Lesson text.")
                         (Returns (mk_response 200 (Returns sample_search_body)))
                         sample_now)
           None sample_widgets) = Stop.
Proof.
  rewrite (listing_failure_stops_the_run ascii_builtins _ None sample_widgets
             (mk_exception "ConnectionError" "connection refused")).
  - reflexivity.
  - discriminate.
  - discriminate.
  - reflexivity.
Defined.

(** X7.  When the selected model is not in the listing, the error on the
    page names the model and gives the listed models, joined by a comma
    and a space, in the order of the listing. *)
Theorem absent_model_message
        (py : builtins) (w : env) (prior : option session_state) (ui : widgets)
        (inventory : list string) :
  str_strip py (composio_text ui) <> EmptyString ->
  str_strip py (serpapi_text ui) <> EmptyString ->
  ollama_list_reply w [] = Returns inventory ->
  ~ In (model_name (selectbox_model ui)) inventory ->
  page (snd (run py w prior ui)) =
  (sidebar_elements ++
   [st_error ("Model " ++ model_name (selectbox_model ui) ++
              " not found. Available models: " ++ String.concat ", " inventory)])%list.
Proof.
  intros K1 K2 L Hnot. rewrite run_checks. cbv zeta.
  replace (keys_missing py ui) with false by (symmetry; now apply keys_present).
  rewrite L.
  replace (model_listed ui inventory) with false; [reflexivity|].
  symmetry. apply not_true_is_false. intros H. now apply model_listed_In in H.
Qed.

Lemma absent_model_message_witness :
  page (snd (run ascii_builtins
                 (constant_env (Returns ["mistral:latest"; "phi3:mini"])
                               (Returns "Lesson text.")
                               (Returns (mk_response 200 (Returns sample_search_body)))
                               sample_now)
                 None sample_widgets)) =
  (sidebar_elements ++
   [st_error "Model llama3.2:latest not found. Available models: mistral:latest, phi3:mini"])%list.
Proof.
  apply (absent_model_message ascii_builtins _ None sample_widgets
           ["mistral:latest"; "phi3:mini"]).
  - discriminate.
  - discriminate.
  - reflexivity.
  - intros [H | [H | []]]; discriminate H.
Defined.

(* ===================================================================== *)
(** * Runs that pass the checks *)
(* ===================================================================== *)

(** X8.  When the checks pass and no plan is asked for (the button is not
    pressed, or it is pressed with an empty topic), the run does not stop:
    it makes the listing call only, shows the complaint about the topic if
    the button was pressed, and goes on to the foot of the page; the topic
    in the session stays the one of the run before. *)
Theorem run_without_a_plan
        (py : builtins) (w : env) (prior : option session_state) (ui : widgets) :
  checks_pass py w ui ->
  generate_button ui = false \/ topic_text ui = EmptyString ->
  run py w prior ui =
  (Ret tt,
   mk_state (mk_session (model_name (selectbox_model ui))
                        (str_strip py (composio_text ui))
                        (str_strip py (serpapi_text ui))
                        (ss_topic (session_before prior)))
            [ollama_list_call]
            (sidebar_elements ++ head_elements ++
             (if generate_button ui then [st_error "Please enter a topic!"] else []) ++
             foot_elements (model_name (selectbox_model ui)))).
Proof.
  intros Hchecks Hidle.
  apply checks_pass_iff in Hchecks as (K & inventory & L & Hlisted).
  assert (G : generation_requested ui = false).
  { unfold generation_requested. destruct Hidle as [-> | ->]; [reflexivity|].
    apply andb_false_r. }
  rewrite run_checks. cbv zeta. rewrite K, L, Hlisted.
  rewrite (main_page_idle_page py w ui _ G).
  reflexivity.
Qed.

Lemma run_without_a_plan_witness :
  fst (run ascii_builtins sample_env None
           (mk_widgets llama3_2_latest "composio-key" "serp-key" EmptyString true)) = Ret tt.
Proof.
  rewrite (run_without_a_plan ascii_builtins sample_env None
             (mk_widgets llama3_2_latest "composio-key" "serp-key" EmptyString true)).
  - reflexivity.
  - split; [discriminate|]. split; [discriminate|].
    exists sample_models. split; [reflexivity | now left].
  - right. reflexivity.
Defined.

(** The whole state a generating run ends in. *)
Lemma run_generates_state (py : builtins) (w : env) (prior : option session_state)
      (ui : widgets) :
  checks_pass py w ui ->
  plan_requested ui ->
  exists r1 r2 r3 r4 s4,
    agents_ran py w (topic_text ui) (agents_start py ui) r1 r2 r3 r4 s4 /\
    run py w prior ui =
    (Ret tt,
     mk_state (session (agents_start py ui))
              (calls s4 ++ [datetime_now_call; datetime_now_call])
              (sidebar_elements ++ head_elements ++
               [st_markdown "### 📄 Download Learning Materials:"] ++
               firstn 4 (download_buttons py (topic_text ui) r1 r2 r3 r4
                           (strftime (datetime_now_value w (calls s4)) "%Y%m%d_%H%M%S")
                           (strftime (datetime_now_value w (calls s4 ++ [datetime_now_call]))
                                     "%Y-%m-%d %H:%M:%S")) ++
               [st_markdown "---"] ++
               skipn 4 (download_buttons py (topic_text ui) r1 r2 r3 r4
                          (strftime (datetime_now_value w (calls s4)) "%Y%m%d_%H%M%S")
                          (strftime (datetime_now_value w (calls s4 ++ [datetime_now_call]))
                                    "%Y-%m-%d %H:%M:%S")) ++
               displayed_results r1 r2 r3 r4 ++
               foot_elements (model_name (selectbox_model ui)))).
Proof.
  intros Hchecks Hplan.
  apply checks_pass_iff in Hchecks as (K & inventory & L & Hlisted).
  destruct Hplan as [Hbutton Htopic].
  assert (Hempty : str_is_empty (topic_text ui) = false)
    by (destruct (topic_text ui); [contradiction | reflexivity]).
  rewrite run_checks. cbv zeta. rewrite K, L, Hlisted.
  unfold main_page. repeat step. rewrite Hbutton, Hempty.
  match goal with
  | |- context [bind (generate py w ?t) _ ?s'] =>
      destruct (generate_page py w t s') as (r1 & r2 & r3 & r4 & s4 & Hran & Hgen)
  end.
  exists r1, r2, r3, r4, s4. split; [exact Hran|].
  rewrite (bind_returns _ _ _ _ _ Hgen). rewrite foot_page.
  cbn [session calls page with_topic ss_ollama_model session_configured configured].
  unfold agents_start, sidebar_elements, head_elements.
  cbn [session]. rewrite <- ?app_assoc. reflexivity.
Qed.

(** The four agents one after the other, written out: each chat is put to
    the world with the calls made before it. *)
Lemma agents_ran_explicit (py : builtins) (w : env) (topic : string) (s0 : state)
      (r1 r2 r3 r4 : AgentResult) (s4 : state) :
  agents_ran py w topic s0 r1 r2 r3 r4 s4 ->
  let model := ss_ollama_model (session s0) in
  let c1 := ollama_chat_call model (user_message (professor_prompt topic)) in
  let c2 := ollama_chat_call model (user_message (academic_advisor_prompt topic)) in
  let c3 := requests_get_call search_url
              (search_params (librarian_query topic) (ss_serpapi_api_key (session s0))) in
  let results :=
    search_outcome (requests_get_reply w (calls s0 ++ [c1; c2]) search_url
                      (search_params (librarian_query topic)
                                     (ss_serpapi_api_key (session s0)))) in
  let c4 := ollama_chat_call model
              (user_message (research_librarian_prompt py topic results)) in
  let c5 := ollama_chat_call model (user_message (teaching_assistant_prompt topic)) in
  r1 = mk_result
         (ollama_text (ollama_chat_reply w (calls s0) model
                         (user_message (professor_prompt topic))))
         ("Professor Report - " ++ topic)
         ("professor_report_" ++ topic_snake_case py topic) None /\
  r2 = mk_result
         (ollama_text (ollama_chat_reply w (calls s0 ++ [c1]) model
                         (user_message (academic_advisor_prompt topic))))
         ("Learning Roadmap - " ++ topic)
         ("learning_roadmap_" ++ topic_snake_case py topic) None /\
  r3 = mk_result
         (ollama_text (ollama_chat_reply w (calls s0 ++ [c1; c2; c3]) model
                         (user_message (research_librarian_prompt py topic results))))
         ("Learning Resources - " ++ topic)
         ("learning_resources_" ++ topic_snake_case py topic) (Some results) /\
  r4 = mk_result
         (ollama_text (ollama_chat_reply w (calls s0 ++ [c1; c2; c3; c4]) model
                         (user_message (teaching_assistant_prompt topic))))
         ("Practice Materials - " ++ topic)
         ("practice_materials_" ++ topic_snake_case py topic) None /\
  s4 = with_calls s0 [c1; c2; c3; c4; c5].
Proof.
  intros (s1 & s2 & s3 & E1 & E2 & E3 & E4). cbv zeta.
  rewrite professor_agent_run in E1. injection E1 as <- <-.
  rewrite academic_advisor_agent_run in E2. injection E2 as <- <-.
  rewrite (research_librarian_agent_run py w topic) in E3. injection E3 as <- <-.
  rewrite teaching_assistant_agent_run in E4. injection E4 as <- <-.
  unfold chat_reply_at, chat_call_at, librarian_search_call.
  rewrite !with_calls_twice. cbn [with_calls session calls app].
  rewrite <- !app_assoc. cbn [app].
  repeat split.
Qed.

(** X9.  In a run that generates a plan the calls are, in this order: the
    listing, the Professor's chat, the Academic Advisor's chat, the search
    and then the chat of the Research Librarian, the Teaching Assistant's
    chat, and two readings of the clock.  Each prompt is the agent's
    template for the topic as typed; the search carries the stripped
    SerpAPI key; the Composio key is in none of them.  The session ends
    with the topic stored. *)
Theorem calls_of_a_generating_run
        (py : builtins) (w : env) (prior : option session_state) (ui : widgets) :
  checks_pass py w ui ->
  plan_requested ui ->
  let model := model_name (selectbox_model ui) in
  let topic := topic_text ui in
  exists results,
    calls (snd (run py w prior ui)) =
    [ollama_list_call;
     ollama_chat_call model [mk_message "user" (professor_prompt topic)];
     ollama_chat_call model [mk_message "user" (academic_advisor_prompt topic)];
     requests_get_call "https://serpapi.com/search"
       [("q", PStr ("learn " ++ topic ++ " tutorial course"));
        ("api_key", PStr (str_strip py (serpapi_text ui)));
        ("engine", PStr "google"); ("num", PInt 5)];
     ollama_chat_call model
       [mk_message "user" (research_librarian_prompt py topic results)];
     ollama_chat_call model [mk_message "user" (teaching_assistant_prompt topic)];
     datetime_now_call;
     datetime_now_call] /\
    session (snd (run py w prior ui)) =
    mk_session model (str_strip py (composio_text ui))
               (str_strip py (serpapi_text ui)) topic.
Proof.
  intros Hchecks Hplan model topic.
  destruct (run_generates_state py w prior ui Hchecks Hplan)
    as (r1 & r2 & r3 & r4 & s4 & Hran & Hrun).
  apply agents_ran_explicit in Hran. cbv zeta in Hran.
  destruct Hran as (_ & _ & _ & _ & ->).
  rewrite Hrun. cbn [snd calls session with_calls agents_start app].
  eexists. split; reflexivity.
Qed.

Lemma calls_of_a_generating_run_witness :
  exists results,
    calls (snd (run ascii_builtins sample_env None sample_widgets)) =
    [ollama_list_call;
     ollama_chat_call "llama3.2:latest"
       [mk_message "user" (professor_prompt "Python Programming")];
     ollama_chat_call "llama3.2:latest"
       [mk_message "user" (academic_advisor_prompt "Python Programming")];
     requests_get_call "https://serpapi.com/search"
       [("q", PStr ("learn " ++ "Python Programming" ++ " tutorial course"));
        ("api_key", PStr (str_strip ascii_builtins "serp-key"));
        ("engine", PStr "google"); ("num", PInt 5)];
     ollama_chat_call "llama3.2:latest"
       [mk_message "user"
          (research_librarian_prompt ascii_builtins "Python Programming" results)];
     ollama_chat_call "llama3.2:latest"
       [mk_message "user" (teaching_assistant_prompt "Python Programming")];
     datetime_now_call;
     datetime_now_call] /\
    session (snd (run ascii_builtins sample_env None sample_widgets)) =
    mk_session "llama3.2:latest" (str_strip ascii_builtins " composio-key ")
               (str_strip ascii_builtins "serp-key") "Python Programming".
Proof.
  apply (calls_of_a_generating_run ascii_builtins sample_env None sample_widgets).
  - split; [discriminate|]. split; [discriminate|].
    exists sample_models. split; [reflexivity | now left].
  - split; [reflexivity | discriminate].
Defined.

(** X10.  In a run that generates a plan, what the page displays under the
    four headings is what the four download buttons hold: for each agent
    the text shown is the [content] that is the data of its button, and the
    package is made of the same four, in the order Professor, Academic
    Advisor, Research Librarian, Teaching Assistant. *)
Theorem displayed_is_downloaded
        (py : builtins) (w : env) (prior : option session_state) (ui : widgets) :
  checks_pass py w ui ->
  plan_requested ui ->
  exists r1 r2 r3 r4 timestamp generated_on above,
    page (snd (run py w prior ui)) =
    (above ++
     [st_markdown "### 🎓 Professor's Knowledge Base:";
      st_markdown (content r1);
      st_divider;
      st_markdown "### 🗺️ Academic Advisor's Learning Roadmap:";
      st_markdown (content r2);
      st_divider;
      st_markdown "### 📚 Research Librarian's Resource Guide:";
      st_markdown (content r3);
      st_divider;
      st_markdown "### 🎯 Teaching Assistant's Practice Materials:";
      st_markdown (content r4);
      st_divider] ++
     foot_elements (model_name (selectbox_model ui)))%list /\
    filter is_download above =
    download_buttons py (topic_text ui) r1 r2 r3 r4 timestamp generated_on /\
    filter is_download (page (snd (run py w prior ui))) = filter is_download above.
Proof.
  intros Hchecks Hplan.
  destruct (run_generates_state py w prior ui Hchecks Hplan)
    as (r1 & r2 & r3 & r4 & s4 & _ & Hrun).
  exists r1, r2, r3, r4. do 2 eexists.
  exists (sidebar_elements ++ head_elements ++
          [st_markdown "### 📄 Download Learning Materials:"] ++
          firstn 4 (download_buttons py (topic_text ui) r1 r2 r3 r4
                      (strftime (datetime_now_value w (calls s4)) "%Y%m%d_%H%M%S")
                      (strftime (datetime_now_value w (calls s4 ++ [datetime_now_call]))
                                "%Y-%m-%d %H:%M:%S")) ++
          [st_markdown "---"] ++
          skipn 4 (download_buttons py (topic_text ui) r1 r2 r3 r4
                     (strftime (datetime_now_value w (calls s4)) "%Y%m%d_%H%M%S")
                     (strftime (datetime_now_value w (calls s4 ++ [datetime_now_call]))
                               "%Y-%m-%d %H:%M:%S")))%list.
  rewrite Hrun. cbn [snd page].
  split; [|split].
  - unfold displayed_results. rewrite <- !app_assoc. reflexivity.
  - reflexivity.
  - reflexivity.
Qed.

Lemma displayed_is_downloaded_witness :
  exists r1 r2 r3 r4 timestamp generated_on above,
    page (snd (run ascii_builtins offline_env None sample_widgets)) =
    (above ++
     [st_markdown "### 🎓 Professor's Knowledge Base:";
      st_markdown (content r1);
      st_divider;
      st_markdown "### 🗺️ Academic Advisor's Learning Roadmap:";
      st_markdown (content r2);
      st_divider;
      st_markdown "### 📚 Research Librarian's Resource Guide:";
      st_markdown (content r3);
      st_divider;
      st_markdown "### 🎯 Teaching Assistant's Practice Materials:";
      st_markdown (content r4);
      st_divider] ++
     foot_elements (model_name (selectbox_model sample_widgets)))%list /\
    filter is_download above =
    download_buttons ascii_builtins (topic_text sample_widgets) r1 r2 r3 r4
                     timestamp generated_on /\
    filter is_download (page (snd (run ascii_builtins offline_env None sample_widgets))) =
    filter is_download above.
Proof.
  apply (displayed_is_downloaded ascii_builtins offline_env None sample_widgets).
  - split; [discriminate|]. split; [discriminate|].
    exists sample_models. split; [reflexivity | now left].
  - split; [reflexivity | discriminate].
Defined.

(** X11.  A run calls the language model, and the search provider, exactly
    when the two keys are present, the selected model is listed, the
    button is pressed and the topic is not empty.  A topic of blanks
    counts: the topic is not stripped. *)
Theorem agents_run_exactly_when
        (py : builtins) (w : env) (prior : option session_state) (ui : widgets) :
  (existsb is_chat_call (calls (snd (run py w prior ui))) = true <->
   checks_pass py w ui /\ plan_requested ui) /\
  (existsb is_search_call (calls (snd (run py w prior ui))) = true <->
   checks_pass py w ui /\ plan_requested ui).
Proof.
  rewrite checks_pass_iff, plan_requested_iff.
  destruct (run_cases py w prior ui)
    as [(K & s' & Hrun & Hcalls & _)
       |[(K & Hnone & s' & Hrun & Hcalls & _)
        |[(K & _ & G & s' & Hrun & Hcalls & _)
         |(K & (inventory & L & Hlisted) & G &
           r1 & r2 & r3 & r4 & s0 & s4 & s' & p1 & p2 & q & p3 & p4 &
           _ & _ & _ & Hrun & Hcalls & _ & Hs4)]]];
    rewrite Hrun; cbn [snd]; rewrite Hcalls.
  - split; (split; [discriminate | intros [[K' _] _]; congruence]).
  - split; (split; [discriminate|]);
      intros [[_ (inventory & L & Hlisted)] _];
      specialize (Hnone inventory L); congruence.
  - split; (split; [discriminate | intros [_ G']; congruence]).
  - rewrite Hs4.
    split; (split; [intros _|reflexivity]);
      (split; [split; [exact K | now exists inventory] | exact G]).
Qed.

Lemma agents_run_exactly_when_witness :
  checks_pass ascii_builtins sample_env
              (mk_widgets llama3_2_latest "c" "s" "   " true) /\
  plan_requested (mk_widgets llama3_2_latest "c" "s" "   " true).
Proof.
  apply (proj1 (agents_run_exactly_when ascii_builtins sample_env None
                  (mk_widgets llama3_2_latest "c" "s" "   " true))).
  vm_compute. reflexivity.
Defined.

(** X12.  The Composio key is asked for and never used.  Two runs that
    differ only in the text of the Composio field, both texts non-empty
    once stripped, end alike, make the same calls and show the same page:
    the key reaches no request, no prompt, no file. *)
Theorem composio_key_is_never_used
        (py : builtins) (w : env) (prior : option session_state) (ui : widgets)
        (text : string) :
  str_strip py (composio_text ui) <> EmptyString ->
  str_strip py text <> EmptyString ->
  fst (run py w prior ui) = fst (run py w prior (with_composio_text ui text)) /\
  calls (snd (run py w prior ui)) =
  calls (snd (run py w prior (with_composio_text ui text))) /\
  page (snd (run py w prior ui)) =
  page (snd (run py w prior (with_composio_text ui text))).
Proof.
  intros K1 K1'.
  set (ui' := with_composio_text ui text).
  assert (Hkeys : keys_missing py ui' = keys_missing py ui).
  { unfold keys_missing, ui', with_composio_text. cbn [composio_text serpapi_text].
    destruct (str_strip py (composio_text ui)); [contradiction|].
    destruct (str_strip py text); [contradiction|]. reflexivity. }
  destruct (keys_missing py ui) eqn:K.
  { rewrite !run_checks. cbv zeta. rewrite Hkeys, K. repeat split. }
  destruct (ollama_list_reply w []) as [inventory|e] eqn:L.
  2:{ rewrite !run_checks. cbv zeta. rewrite Hkeys, K, L. repeat split. }
  assert (Hlisted' : model_listed ui' inventory = model_listed ui inventory)
    by reflexivity.
  destruct (model_listed ui inventory) eqn:Hlisted.
  2:{ rewrite !run_checks. cbv zeta. rewrite Hkeys, K, L, Hlisted', Hlisted.
      repeat split. }
  assert (G' : generation_requested ui' = generation_requested ui) by reflexivity.
  destruct (generation_requested ui) eqn:G.
  2:{ rewrite !run_checks. cbv zeta. rewrite Hkeys, K, L, Hlisted', Hlisted.
      rewrite (main_page_idle_page py w ui _ G), (main_page_idle_page py w ui' _ G').
      repeat split. }
  assert (Hchecks : checks_pass py w ui)
    by (apply checks_pass_iff; split; [exact K | now exists inventory]).
  assert (Hchecks' : checks_pass py w ui').
  { apply checks_pass_iff. split; [now rewrite Hkeys | exists inventory].
    split; [exact L | now rewrite Hlisted']. }
  apply plan_requested_iff in G. apply plan_requested_iff in G'.
  destruct (run_generates_state py w prior ui Hchecks G)
    as (r1 & r2 & r3 & r4 & s4 & Hran & Hrun).
  destruct (run_generates_state py w prior ui' Hchecks' G')
    as (r1' & r2' & r3' & r4' & s4' & Hran' & Hrun').
  apply agents_ran_explicit in Hran. apply agents_ran_explicit in Hran'.
  cbv zeta in Hran, Hran'.
  destruct Hran as (-> & -> & -> & -> & ->).
  destruct Hran' as (-> & -> & -> & -> & ->).
  rewrite Hrun, Hrun'. repeat split.
Qed.

Lemma composio_key_is_never_used_witness :
  fst (run ascii_builtins sample_env None sample_widgets) =
  fst (run ascii_builtins sample_env None
           (with_composio_text sample_widgets "another key")) /\
  calls (snd (run ascii_builtins sample_env None sample_widgets)) =
  calls (snd (run ascii_builtins sample_env None
                  (with_composio_text sample_widgets "another key"))) /\
  page (snd (run ascii_builtins sample_env None sample_widgets)) =
  page (snd (run ascii_builtins sample_env None
                 (with_composio_text sample_widgets "another key"))).
Proof.
  apply (composio_key_is_never_used ascii_builtins sample_env None sample_widgets
           "another key"); discriminate.
Defined.

(* ===================================================================== *)
(** * Error text and content *)
(* ===================================================================== *)

(** X13.  What [call_ollama] returns does not tell a failure from a
    success: a world where the chat raises [e] and a world where the model
    answers with the words [Error calling Ollama: ] and the message of [e]
    give the same result and leave the same state. *)
Theorem error_text_is_not_told_apart
        (w1 w2 : env) (prompt : string) (model : option string) (s : state)
        (e : exception) :
  ollama_chat_reply w1 (calls s) (chosen_model model s) (user_message prompt)
  = Raises e ->
  ollama_chat_reply w2 (calls s) (chosen_model model s) (user_message prompt)
  = Returns ("Error calling Ollama: " ++ exc_str e) ->
  call_ollama w1 prompt model s = call_ollama w2 prompt model s.
Proof.
  intros H1 H2. rewrite !call_ollama_run, H1, H2. reflexivity.
Qed.

Lemma error_text_is_not_told_apart_witness :
  call_ollama offline_env "Explain monads" None (initial_state None) =
  call_ollama
    (constant_env (Returns sample_models)
                  (Returns "Error calling Ollama: Failed to connect to Ollama")
                  (Raises (mk_exception "ConnectionError" "Max retries exceeded"))
                  sample_now)
    "Explain monads" None (initial_state None).
Proof.
  apply (error_text_is_not_told_apart offline_env _ "Explain monads" None
           (initial_state None)
           (mk_exception "ConnectionError" "Failed to connect to Ollama"));
    reflexivity.
Defined.

(* ===================================================================== *)
(** * The two stamps *)
(* ===================================================================== *)

Lemma append_cancel_l (a x y : string) : a ++ x = a ++ y -> x = y.
Proof.
  induction a as [|c a IH]; simpl; intros H; [exact H|].
  injection H as H. now apply IH.
Qed.

Lemma two_digits_read_back (n : N) :
  (n < 100)%N ->
  exists a b,
    zero_padded 2 n = String a (String b EmptyString) /\
    number_of (String a (String b EmptyString)) 0 = n.
Proof.
  intros Hn.
  assert (Hall : forallb (fun k => reads_back 2 (N.of_nat k)) (seq 0 (N.to_nat 100)) = true)
    by (vm_compute; reflexivity).
  rewrite forallb_forall in Hall.
  specialize (Hall (N.to_nat n)). rewrite N2Nat.id in Hall.
  assert (H : reads_back 2 n = true) by (apply Hall, in_seq; lia).
  unfold reads_back in H. apply andb_true_iff in H as [Hlen Hval].
  apply Nat.eqb_eq in Hlen. apply N.eqb_eq in Hval.
  destruct (zero_padded 2 n) as [|a [|b [|c rest]]]; try discriminate Hlen.
  now exists a, b.
Qed.

Lemma four_digits_read_back (n : N) :
  (n < 10000)%N ->
  exists a b c d,
    zero_padded 4 n = String a (String b (String c (String d EmptyString))) /\
    number_of (String a (String b (String c (String d EmptyString)))) 0 = n.
Proof.
  intros Hn.
  assert (Hall : forallb (fun k => reads_back 4 (N.of_nat k)) (seq 0 (N.to_nat 10000)) = true)
    by (vm_compute; reflexivity).
  rewrite forallb_forall in Hall.
  specialize (Hall (N.to_nat n)). rewrite N2Nat.id in Hall.
  assert (H : reads_back 4 n = true) by (apply Hall, in_seq; lia).
  unfold reads_back in H. apply andb_true_iff in H as [Hlen Hval].
  apply Nat.eqb_eq in Hlen. apply N.eqb_eq in Hval.
  destruct (zero_padded 4 n) as [|a [|b [|c [|d [|x rest]]]]]; try discriminate Hlen.
  now exists a, b, c, d.
Qed.

(** The stamp of the file names can be read back, whatever follows it. *)
Lemma read_stamp_strftime (d : datetime) (rest : string) :
  valid_datetime d -> read_stamp (strftime d "%Y%m%d_%H%M%S" ++ rest) = d.
Proof.
  intros (Hy & Hm & Hd & HH & HM & HS).
  destruct d as [y m dd h mi sec]. cbn [year month day hour minute second] in *.
  change (strftime (mk_datetime y m dd h mi sec) "%Y%m%d_%H%M%S")
    with (zero_padded 4 y ++ zero_padded 2 m ++ zero_padded 2 dd ++
          "_" ++ zero_padded 2 h ++ zero_padded 2 mi ++ zero_padded 2 sec ++ EmptyString).
  destruct (four_digits_read_back y) as (y1 & y2 & y3 & y4 & -> & Ey); [lia|].
  destruct (two_digits_read_back m) as (m1 & m2 & -> & Em); [lia|].
  destruct (two_digits_read_back dd) as (d1 & d2 & -> & Ed); [lia|].
  destruct (two_digits_read_back h) as (h1 & h2 & -> & Eh); [lia|].
  destruct (two_digits_read_back mi) as (i1 & i2 & -> & Ei); [lia|].
  destruct (two_digits_read_back sec) as (s1 & s2 & -> & Es); [lia|].
  unfold read_stamp. cbn [append substring].
  replace (substring 0 0 rest) with EmptyString by (now destruct rest).
  now rewrite Ey, Em, Ed, Eh, Ei, Es.
Qed.

(** X14.  The stamp tells the second: two file names made from the same
    name with the stamps of two readings of the clock are equal only if
    the two readings are the same date and time.  Downloads of cycles run
    in different seconds cannot overwrite each other; those of one second
    can. *)
Theorem file_names_differ_by_the_second (name : string) (d1 d2 : datetime) :
  valid_datetime d1 ->
  valid_datetime d2 ->
  name ++ "_" ++ strftime d1 "%Y%m%d_%H%M%S" ++ ".txt" =
  name ++ "_" ++ strftime d2 "%Y%m%d_%H%M%S" ++ ".txt" ->
  d1 = d2.
Proof.
  intros H1 H2 Heq.
  apply append_cancel_l in Heq. apply (append_cancel_l "_") in Heq.
  rewrite <- (read_stamp_strftime d1 ".txt" H1), <- (read_stamp_strftime d2 ".txt" H2).
  now rewrite Heq.
Qed.

Lemma file_names_differ_by_the_second_witness :
  sample_now = mk_datetime 2024 5 17 9 3 7.
Proof.
  apply (file_names_differ_by_the_second "professor_report_rust").
  - unfold valid_datetime. simpl. lia.
  - unfold valid_datetime. simpl. lia.
  - reflexivity.
Defined.

Lemma package_stamp_shape (d : datetime) :
  valid_datetime d ->
  has_shape "YYYY-MM-DD HH:MM:SS" (strftime d "%Y-%m-%d %H:%M:%S") = true.
Proof.
  intros (Hy & Hm & Hd & HH & HM & HS).
  change (strftime d "%Y-%m-%d %H:%M:%S")
    with (zero_padded 4 (year d) ++ "-" ++ zero_padded 2 (month d) ++ "-" ++
          zero_padded 2 (day d) ++ " " ++ zero_padded 2 (hour d) ++ ":" ++
          zero_padded 2 (minute d) ++ ":" ++ zero_padded 2 (second d) ++ EmptyString).
  change "YYYY-MM-DD HH:MM:SS"
    with ("YYYY" ++ "-" ++ "MM" ++ "-" ++ "DD" ++ " " ++ "HH" ++ ":" ++ "MM" ++ ":" ++
          "SS" ++ EmptyString).
  apply has_shape_app; [apply (four_digits (year d)); lia|].
  apply (has_shape_app "-" _ "-"); [reflexivity|].
  apply has_shape_app; [apply (two_digits (month d)); lia|].
  apply (has_shape_app "-" _ "-"); [reflexivity|].
  apply has_shape_app; [apply (two_digits (day d)); lia|].
  apply (has_shape_app " " _ " "); [reflexivity|].
  apply has_shape_app; [apply (two_digits (hour d)); lia|].
  apply (has_shape_app ":" _ ":"); [reflexivity|].
  apply has_shape_app; [apply (two_digits (minute d)); lia|].
  apply (has_shape_app ":" _ ":"); [reflexivity|].
  apply has_shape_app; [apply (two_digits (second d)); lia|].
  reflexivity.
Qed.

(** X15.  The time written into the package is not the time of the file
    names: the clock is read a second time, after the first reading, and
    the line [Generated on: ] of the package holds that second reading in
    the shape [YYYY-MM-DD HH:MM:SS]. *)
Theorem package_time_is_a_second_reading
        (py : builtins) (w : env) (prior : option session_state) (ui : widgets) :
  checks_pass py w ui ->
  plan_requested ui ->
  (forall log, valid_datetime (datetime_now_value w log)) ->
  exists r1 r2 r3 r4 log package,
    let timestamp := strftime (datetime_now_value w log) "%Y%m%d_%H%M%S" in
    let generated_on :=
      strftime (datetime_now_value w (log ++ [datetime_now_call])) "%Y-%m-%d %H:%M:%S" in
    calls (snd (run py w prior ui)) = (log ++ [datetime_now_call; datetime_now_call])%list /\
    filter is_download (page (snd (run py w prior ui))) =
    download_buttons py (topic_text ui) r1 r2 r3 r4 timestamp generated_on /\
    package = complete_package_text py (topic_text ui) generated_on
                (content r1) (content r2) (content r3) (content r4) /\
    contains package (nl ++ "Generated on: " ++ generated_on ++ nl) /\
    has_shape "YYYY-MM-DD HH:MM:SS" generated_on = true.
Proof.
  intros Hchecks Hplan Hclock.
  destruct (run_generates_state py w prior ui Hchecks Hplan)
    as (r1 & r2 & r3 & r4 & s4 & _ & Hrun).
  exists r1, r2, r3, r4, (calls s4). eexists. cbv zeta.
  rewrite Hrun. cbn [snd calls page].
  split; [reflexivity|]. split; [reflexivity|]. split; [reflexivity|].
  split; [|apply package_stamp_shape, Hclock].
  unfold complete_package_text.
  exists (nl ++ "COMPLETE LEARNING PACKAGE FOR: " ++ str_upper py (topic_text ui)).
  eexists. rewrite !append_assoc. reflexivity.
Qed.

Lemma package_time_is_a_second_reading_witness :
  exists r1 r2 r3 r4 log package,
    let timestamp := strftime (datetime_now_value sample_env log) "%Y%m%d_%H%M%S" in
    let generated_on :=
      strftime (datetime_now_value sample_env (log ++ [datetime_now_call]))
               "%Y-%m-%d %H:%M:%S" in
    calls (snd (run ascii_builtins sample_env None sample_widgets)) =
    (log ++ [datetime_now_call; datetime_now_call])%list /\
    filter is_download (page (snd (run ascii_builtins sample_env None sample_widgets))) =
    download_buttons ascii_builtins (topic_text sample_widgets) r1 r2 r3 r4
                     timestamp generated_on /\
    package = complete_package_text ascii_builtins (topic_text sample_widgets) generated_on
                (content r1) (content r2) (content r3) (content r4) /\
    contains package (nl ++ "Generated on: " ++ generated_on ++ nl) /\
    has_shape "YYYY-MM-DD HH:MM:SS" generated_on = true.
Proof.
  apply (package_time_is_a_second_reading ascii_builtins sample_env None sample_widgets).
  - split; [discriminate|]. split; [discriminate|].
    exists sample_models. split; [reflexivity | now left].
  - split; [reflexivity | discriminate].
  - intros log. unfold valid_datetime. simpl. lia.
Defined.

(* ===================================================================== *)
(** * The characters of the file names *)
(* ===================================================================== *)












